(** * easy_thumbnails.VIL.Image: a PIL-compatible facade over reportlab's SVG canvas

    Shallow embedding of [easy_thumbnails/VIL/Image.py] and the properties its
    specification states about it.

    Layout of the development:
    - a small universe of Python values with the arithmetic the module uses
      (ints are unbounded, floats are IEEE 754 binary64, [/] is true division
      and raises on a zero divisor);
    - the DOM heap: documents are objects with identity, [cloneNode] allocates;
    - the external collaborators (reportlab, svglib, pathlib, file I/O) as a
      type class, so every theorem holds for any behaviour of those libraries;
    - the class [Image] and the module functions [new] and [load];
    - the theorems. *)

From Stdlib Require Import ZArith List String Ascii Bool Lia.
From Stdlib Require Import Floats.PrimFloat Floats.SpecFloat Floats.FloatOps.
From stdpp Require Import base option list gmap strings.

Set Warnings "-register-all".
Open Scope Z_scope.
Open Scope string_scope.
Open Scope list_scope.

(* ===================================================================== *)
(** ** Exceptions and the error monad *)
(* ===================================================================== *)

(** The subclasses of Python's [Exception] that the module or the values it
    handles can raise.  Conditions that are not [Exception]s (interrupts,
    interpreter exit) are outside the model.  [InvalidReference] is a model
    artefact: a dereference of a location the heap does not hold, which no
    Python program can produce. *)
Inductive exn :=
| AssertionError | TypeError | IndexError | ValueError | ZeroDivisionError
| OverflowError | RuntimeError | AttributeError | OSError
| InvalidReference.

Inductive result (A : Type) :=
| Ok (a : A)
| Raise (e : exn).
Arguments Ok {A} a.
Arguments Raise {A} e.

#[global] Instance result_ret : MRet result := fun _ a => Ok a.
#[global] Instance result_bind : MBind result := fun _ _ f m =>
  match m with
  | Ok a => f a
  | Raise e => Raise e
  end.
#[global] Instance result_fmap : FMap result := fun _ _ f m =>
  match m with
  | Ok a => Ok (f a)
  | Raise e => Raise e
  end.

(** [try: body / except Exception: handler]. *)
Definition try_except {A} (body : result A) (handler : exn -> result A) : result A :=
  match body with
  | Ok a => Ok a
  | Raise e => handler e
  end.

(** Run [f] on every element, left to right, stopping at the first raise. *)
Fixpoint mapR {A B} (f : A -> result B) (l : list A) : result (list B) :=
  match l with
  | [] => Ok []
  | x :: l' => y ← f x; ys ← mapR f l'; Ok (y :: ys)
  end.

Arguments mapR : simpl never.

(* ===================================================================== *)
(** ** Python numbers *)
(* ===================================================================== *)

(** [int] is unbounded, [float] is a binary64. *)
Inductive num :=
| PInt (z : Z)
| PFloat (f : float).

(** An integer as an exact (unrounded) binary number. *)
Definition Z2SF (z : Z) : spec_float :=
  match z with
  | Z0 => S754_zero false
  | Zpos p => S754_finite false p 0
  | Zneg p => S754_finite true p 0
  end.

(** The binary64 nearest to an integer (ties to even); an infinity when the
    integer is out of range. *)
Definition round_int (z : Z) : spec_float := binary_normalize prec emax z 0 false.

(** [float(z)] for an int [z], and the implicit conversion of an int operand
    in mixed arithmetic: [OverflowError] when [z] is too large. *)
Definition float_of_int (z : Z) : result float :=
  match round_int z with
  | S754_infinity _ => Raise OverflowError
  | sf => Ok (SF2Prim sf)
  end.

Definition to_float (n : num) : result float :=
  match n with
  | PInt z => float_of_int z
  | PFloat f => Ok f
  end.

(** [a - b]. *)
Definition num_sub (a b : num) : result num :=
  match a, b with
  | PInt x, PInt y => Ok (PInt (x - y))
  | _, _ => x ← to_float a; y ← to_float b; Ok (PFloat (PrimFloat.sub x y))
  end.

(** [x / y] on floats: Python raises where IEEE would return an infinity
    or a NaN. *)
Definition float_div (x y : float) : result float :=
  if PrimFloat.eqb y 0%float then Raise ZeroDivisionError
  else Ok (PrimFloat.div x y).

(** [a / b], true division.  On two ints the exact quotient is rounded once;
    a mixed pair converts the int first. *)
Definition num_truediv (a b : num) : result float :=
  match a, b with
  | PInt x, PInt y =>
      if Z.eqb y 0 then Raise ZeroDivisionError
      else match SFdiv prec emax (Z2SF x) (Z2SF y) with
           | S754_infinity _ => Raise OverflowError
           | sf => Ok (SF2Prim sf)
           end
  | _, _ => x ← to_float a; y ← to_float b; float_div x y
  end.

Arguments num_truediv : simpl never.
Arguments num_sub : simpl never.
Arguments float_div : simpl never.

(** The divisor test of [/]: an int [0], or a float [0.0] or [-0.0]. *)
Definition num_is_zero (n : num) : bool :=
  match n with
  | PInt z => Z.eqb z 0
  | PFloat f => PrimFloat.eqb f 0%float
  end.

(** [n > 0], exactly (no conversion of the int). *)
Definition num_positive (n : num) : bool :=
  match n with
  | PInt z => Z.ltb 0 z
  | PFloat f => PrimFloat.ltb 0%float f
  end.

(* ===================================================================== *)
(** ** Python values *)
(* ===================================================================== *)

(** The objects that reach this module.  [True] and [False] are the ints 1
    and 0.  A [pathlib.Path] is carried as its [str()]; a file object as
    what the module can observe of it: its [name] attribute, when it has
    one, what its [close()] raises, when it raises, and whether it was
    opened in binary mode (and then takes [bytes], not [str]). *)
Inductive pyval :=
| VNone
| VNum (n : num)
| VStr (s : string)
| VBytes (s : string)
| VTuple (items : list pyval)
| VList (items : list pyval)
| VPath (p : string)
| VStringIO (buf : string)
| VFile (name : option pyval) (close_raises : option exn) (binary : bool).

Definition VInt (z : Z) : pyval := VNum (PInt z).
Definition VFloat (f : float) : pyval := VNum (PFloat f).

(** [bool(v)], the test of [if v:]. *)
Definition truthy (v : pyval) : bool :=
  match v with
  | VNone => false
  | VNum n => negb (num_is_zero n)
  | VStr s | VBytes s => negb (String.eqb s "")
  | VTuple l | VList l => match l with [] => false | _ => true end
  | VPath _ | VStringIO _ | VFile _ _ _ => true
  end.

(** The characters of a [str], each as a [str] of length one; the bytes of a
    [bytes], each as an int. *)
Definition str_items (s : string) : list pyval :=
  List.map (fun c => VStr (String c EmptyString)) (list_ascii_of_string s).
Definition bytes_items (s : string) : list pyval :=
  List.map (fun c => VInt (Z.of_nat (nat_of_ascii c))) (list_ascii_of_string s).

(** Iteration, as in [tuple(v)] and in the unpacking of a starred argument,
    over the sequences of this universe.  (A file object iterates over its
    lines, which are not carried here: unpacking one is outside the
    model.) *)
Definition py_iter (v : pyval) : result (list pyval) :=
  match v with
  | VTuple l | VList l => Ok l
  | VStr s => Ok (str_items s)
  | VBytes s => Ok (bytes_items s)
  | _ => Raise TypeError
  end.

(** [v[i]] for a literal index [i >= 0]. *)
Definition py_getitem (v : pyval) (i : nat) : result pyval :=
  match v with
  | VTuple _ | VList _ | VStr _ | VBytes _ =>
      l ← py_iter v;
      match l !! i with
      | Some x => Ok x
      | None => Raise IndexError
      end
  | _ => Raise TypeError
  end.

(** [a - b]: defined on numbers only, and then a number. *)
Definition py_sub (a b : pyval) : result num :=
  match a, b with
  | VNum x, VNum y => num_sub x y
  | _, _ => Raise TypeError
  end.

(** [isinstance(v, (int, float))]. *)
Definition is_number (v : pyval) : bool :=
  match v with VNum _ => true | _ => false end.

(** [isinstance(v, (list, tuple))]. *)
Definition is_list_or_tuple (v : pyval) : bool :=
  match v with VTuple _ | VList _ => true | _ => false end.

(** [len(v)] of a list or tuple. *)
Definition py_len (v : pyval) : nat :=
  match v with VTuple l | VList l => length l | _ => O end.

(** [s.lower()], on the ASCII letters; other bytes are kept, so the result
    equals an ASCII literal exactly when Python's does. *)
Definition lower_ascii (c : ascii) : ascii :=
  let n := nat_of_ascii c in
  if (Nat.leb 65 n && Nat.leb n 90)%bool then ascii_of_nat (n + 32) else c.
Fixpoint lower (s : string) : string :=
  match s with
  | EmptyString => EmptyString
  | String c s' => String (lower_ascii c) (lower s')
  end.

(** Binding of a call's arguments to the parameters of a [def] without
    [*args] or [**kwargs]: each parameter has a name and, when optional, a
    default.  [TypeError] on too many positional arguments, an unknown
    keyword, a parameter given twice, or a required parameter not given. *)
Definition kw_lookup (kwargs : list (string * pyval)) (n : string) : option pyval :=
  snd <$> List.find (fun kv => String.eqb (fst kv) n) kwargs.

Fixpoint bind_from (params : list (string * option pyval)) (args : list pyval)
    (kwargs : list (string * pyval)) : result (list pyval) :=
  match params with
  | [] => Ok []
  | (n, dflt) :: ps =>
      v ← match args, kw_lookup kwargs n with
          | a :: _, None => Ok a
          | _ :: _, Some _ => Raise TypeError
          | [], Some k => Ok k
          | [], None => match dflt with Some d => Ok d | None => Raise TypeError end
          end;
      vs ← bind_from ps (tl args) kwargs;
      Ok (v :: vs)
  end.

Definition bind_params (params : list (string * option pyval)) (args : list pyval)
    (kwargs : list (string * pyval)) : result (list pyval) :=
  if Nat.ltb (length params) (length args) then Raise TypeError
  else if forallb (fun kv => existsb (fun p => String.eqb (fst p) (fst kv)) params) kwargs
  then bind_from params args kwargs
  else Raise TypeError.

(* ===================================================================== *)
(** ** The DOM heap *)
(* ===================================================================== *)

(** An attribute value is a string; the module only ever splits it at white
    space and reads the pieces as numbers, or writes numbers separated by
    blanks, so a value is carried as its sequence of tokens.  A number
    printed by [str.format] reads back as the same number. *)
Inductive token :=
| TNum (n : num)
| TWord (w : string).

(** A minidom element: its attribute dictionary and its child nodes, which
    it owns. *)
Record Element := mkElement {
  attributes : gmap string (list token);
  childNodes : list string
}.

(** [element.getAttribute(name)]: the empty string when absent. *)
Definition getAttribute (e : Element) (name : string) : list token :=
  default [] (attributes e !! name).

Definition with_attribute (name : string) (v : list token) (e : Element) : Element :=
  mkElement (<[name := v]> (attributes e)) (childNodes e).

(** Elements are objects: a handle refers to its document by location. *)
Abbreviation loc := nat.
Abbreviation heap := (list Element).

Definition deref (σ : heap) (l : loc) : result Element :=
  match σ !! l with
  | Some e => Ok e
  | None => Raise InvalidReference
  end.

Definition alloc (e : Element) (σ : heap) : loc * heap := (length σ, σ ++ [e]).

(** [node.cloneNode(True)]: a new element with a copy of the attributes and
    of the whole subtree. *)
Definition cloneNode (l : loc) (σ : heap) : result (loc * heap) :=
  e ← deref σ l; Ok (alloc e σ).

(** [element.setAttribute(name, value)], in place. *)
Definition setAttribute (l : loc) (name : string) (v : list token) (σ : heap) : result heap :=
  e ← deref σ l; Ok (<[l := with_attribute name v e]> σ).

(** [float(s)] on one piece of a split string: an integer literal is
    rounded (to an infinity when out of range), a word is rejected. *)
Definition float_of_token (t : token) : result float :=
  match t with
  | TNum (PFloat f) => Ok f
  | TNum (PInt z) => Ok (SF2Prim (round_int z))
  | TWord _ => Raise ValueError
  end.

(** One replacement field [{i}] of [str.format], over the unpacked
    arguments.  The interpreter modelled is one without a limit on the
    digits of an int it prints ([sys.set_int_max_str_digits(0)]); under the
    default limit an int of more than 4300 digits raises [ValueError]
    here. *)
Definition format_field (args : list num) (i : nat) : result token :=
  match args !! i with
  | Some n => Ok (TNum n)
  | None => Raise IndexError
  end.

(** [l[i]] on a list of floats. *)
Definition index (l : list float) (i : nat) : result float :=
  match l !! i with
  | Some x => Ok x
  | None => Raise IndexError
  end.

(* ===================================================================== *)
(** ** External collaborators *)
(* ===================================================================== *)

(** A reportlab color, built by [Color(red, green, blue, alpha)] from at most
    four positional components. *)
Inductive Color := mkColor (components : list pyval).

Definition Color_of (args : list pyval) : result Color :=
  if Nat.leb (length args) 4 then Ok (mkColor args) else Raise TypeError.

(** An svglib drawing: the declared dimensions are all the module reads. *)
Module Drawing.
Record t := mk { width : pyval; height : pyval; shapes : list string }.
End Drawing.

(** reportlab's canvas, as far as the module touches it: the element it
    draws into and the fill color last set. *)
Record SVGCanvas := mkCanvas {
  svg : loc;
  fillColor : option Color
}.

(** The libraries the module delegates to.  Nothing is assumed about them:
    each may raise.
    - [renderSVG_SVGCanvas size]: the [svg] element of a new
      [renderSVG.SVGCanvas(size=size, useClip=True)];
    - [setFillColor_raises c]: what [canvas.setFillColor(c)] raises, when it
      raises (it does on components it cannot take as numbers);
    - [renderSVG_draw d c σ]: the heap after [renderSVG.draw(d, c)];
    - [svg2rlg filename]: svglib's parser, [None] when it cannot decode;
    - [Path_resolve], [Path_name], [Path_suffix]: [pathlib.Path];
    - [open_wb filename]: [builtins.open(filename, "w+b")];
    - [writexml e fp]: minidom's serializer writing [e] to [fp]. *)
Class External := {
  renderSVG_SVGCanvas : pyval -> result Element;
  setFillColor_raises : Color -> option exn;
  renderSVG_draw : Drawing.t -> SVGCanvas -> heap -> result heap;
  svg2rlg : string -> result (option Drawing.t);
  Path_resolve : string -> result string;
  Path_name : string -> string;
  Path_suffix : string -> string;
  open_wb : string -> result pyval;
  writexml : Element -> pyval -> result unit
}.

(* ===================================================================== *)
(** ** class Image *)
(* ===================================================================== *)

(** A handle.  [canvas], [size] and [mode] are set by [__init__]; the others
    are attributes the PIL-style methods look for and [__init__] does not
    create: [None] below means that the attribute is absent.  [_close__fp],
    when present, is a callable, given by what calling it raises. *)
Record Image := mkImage {
  canvas : SVGCanvas;
  size : pyval;
  mode : pyval;
  fp : option pyval;
  _close__fp : option (option exn);
  map : option pyval;
  im : option pyval
}.

Definition set_svg (l : loc) (self : Image) : Image :=
  mkImage (mkCanvas l (fillColor (canvas self)))
          (size self) (mode self) (fp self) (_close__fp self) (map self) (im self).

Definition set_size (v : pyval) (self : Image) : Image :=
  mkImage (canvas self) v (mode self) (fp self) (_close__fp self) (map self) (im self).

Definition set_fp (v : pyval) (self : Image) : Image :=
  mkImage (canvas self) (size self) (mode self) (Some v) (_close__fp self)
          (map self) (im self).

Definition set_map_im (m i : pyval) (self : Image) : Image :=
  mkImage (canvas self) (size self) (mode self) (fp self) (_close__fp self)
          (Some m) (Some i).

Definition set_fillColor (c : Color) (self : Image) : Image :=
  mkImage (mkCanvas (svg (canvas self)) (Some c))
          (size self) (mode self) (fp self) (_close__fp self) (map self) (im self).

(** [self.canvas.setFillColor(color)]: when the canvas takes the color, it
    holds it from then on. *)
Definition setFillColor `{External} (c : Color) (self : Image) : result Image :=
  match setFillColor_raises c with
  | Some ex => Raise ex
  | None => Ok (set_fillColor c self)
  end.

(** The condition of the [assert] in [__init__]; [and] is lazy, so the items
    are only looked at in a sequence of length two. *)
Definition item_is_number (v : pyval) (i : nat) : bool :=
  match py_getitem v i with
  | Ok x => is_number x
  | Raise _ => false
  end.

Definition valid_size (size : pyval) : bool :=
  is_list_or_tuple size && Nat.eqb (py_len size) 2
  && item_is_number size 0 && item_is_number size 1.

(** [obj.close()] on a value held in [fp]. *)
Definition call_close (v : pyval) : result unit :=
  match v with
  | VFile _ None _ | VStringIO _ => Ok tt
  | VFile _ (Some e) _ => Raise e
  | _ => Raise AttributeError
  end.

(** Calling a callable given by what it raises. *)
Definition call (outcome : option exn) : result unit :=
  match outcome with
  | None => Ok tt
  | Some e => Raise e
  end.

(** [getattr(fp, "name")], when [hasattr(fp, "name")]. *)
Definition name_of `{External} (v : pyval) : option pyval :=
  match v with
  | VFile n _ _ => n
  | VPath p => Some (VStr (Path_name p))
  | _ => None
  end.

Definition is_str_or_bytes (v : pyval) : bool :=
  match v with VStr _ | VBytes _ => true | _ => false end.

Definition is_str (s : string) (v : pyval) : bool :=
  match v with VStr s' => String.eqb s' s | _ => false end.

(** ["... %r" % v], a format with one conversion: a tuple on the right is
    the sequence of arguments, and must then hold exactly one; anything else
    is the one argument. *)
Definition percent_r (v : pyval) : result unit :=
  match v with
  | VTuple [_] => Ok tt
  | VTuple _ => Raise TypeError
  | _ => Ok tt
  end.

(** What a successful [save] did: the object written to, whether the module
    opened it itself, and the element serialized. *)
Record Written := mkWritten {
  target : pyval;
  opened : bool;
  document : Element
}.

Section Image.
Context `{External}.

(** [Image.__init__(self, size)] *)
Definition Image_init (size : pyval) (σ : heap) : result (Image * heap) :=
  if valid_size size then
    e ← renderSVG_SVGCanvas size;
    let '(l, σ1) := alloc e σ in
    items ← py_iter size;
    Ok (mkImage (mkCanvas l None) (VTuple items) VNone None None None None, σ1)
  else Raise AssertionError.

(** [Image.getbbox(self)] *)
Definition getbbox (self : Image) (σ : heap) : result (list float) :=
  e ← deref σ (svg (canvas self));
  mapR float_of_token (getAttribute e "viewBox").

(** [Image.resize(self, size, **kwargs)] *)
Definition resize (self : Image) (size : pyval) (σ : heap) : result (Image * heap) :=
  '(copy, σ1) ← Image_init size σ;
  '(l, σ2) ← cloneNode (svg (canvas self)) σ1;
  Ok (set_svg l copy, σ2).

(** [box[i] - box[j]] *)
Definition span (box : pyval) (i j : nat) : result num :=
  a ← py_getitem box i; b ← py_getitem box j; py_sub a b.

(** Lines 72-74 and 76-78 of [crop]: the two ways to shrink [bbox]. *)
Definition shrink_width (wanted : float) (bbox : list float) : result (list float) :=
  b3 ← index bbox 3;
  let new_width := PrimFloat.mul wanted b3 in
  b0 ← index bbox 0;
  b2 ← index bbox 2;
  d ← num_truediv (PFloat (PrimFloat.sub b2 new_width)) (PInt 2);
  Ok (<[2%nat := new_width]> (<[0%nat := PrimFloat.add b0 d]> bbox)).

Definition shrink_height (wanted : float) (bbox : list float) : result (list float) :=
  b2 ← index bbox 2;
  new_height ← float_div b2 wanted;
  b1 ← index bbox 1;
  b3 ← index bbox 3;
  d ← num_truediv (PFloat (PrimFloat.sub b3 new_height)) (PInt 2);
  Ok (<[3%nat := new_height]> (<[1%nat := PrimFloat.add b1 d]> bbox)).

(** [Image.crop(self, box=None)] *)
Definition crop (self : Image) (box : pyval) (σ : heap) : result (Image * heap) :=
  '(copy, σ1) ← Image_init (size self) σ;
  '(l, σ2) ← cloneNode (svg (canvas self)) σ1;
  let copy := set_svg l copy in
  if truthy box then
    bbox ← getbbox self σ2;
    b2 ← index bbox 2; b0 ← index bbox 0;
    b3 ← index bbox 3; b1 ← index bbox 1;
    current_aspect_ratio ← float_div (PrimFloat.sub b2 b0) (PrimFloat.sub b3 b1);
    w ← span box 2 0;
    h ← span box 3 1;
    wanted_aspect_ratio ← num_truediv w h;
    bbox ← (if PrimFloat.ltb wanted_aspect_ratio current_aspect_ratio
            then shrink_width wanted_aspect_ratio bbox
            else shrink_height wanted_aspect_ratio bbox);
    w ← span box 2 0;
    h ← span box 3 1;
    let copy := set_size (VTuple [VNum w; VNum h]) copy in
    viewBox ← mapR (format_field (PFloat <$> bbox)) [0; 1; 2; 3]%nat;
    σ3 ← setAttribute l "viewBox" viewBox σ2;
    width ← format_field [w; h] 0;
    σ4 ← setAttribute l "width" [width] σ3;
    height ← format_field [w; h] 1;
    σ5 ← setAttribute l "height" [height] σ4;
    Ok (copy, σ5)
  else Ok (copy, σ2).

(** [Image.close(self)] *)
Definition close (self : Image) : result Image :=
  self ← try_except
    (_ ← match _close__fp self with
         | Some f => call f
         | None => Ok tt
         end;
     f ← match fp self with
         | Some f => Ok f
         | None => Raise AttributeError
         end;
     _ ← call_close f;
     Ok (set_fp VNone self))
    (fun msg => Ok self);
  Ok (set_map_im VNone VNone self).

(** [Image.save(self, fp, format=None, **params)] *)
Definition save (self : Image) (fp format : pyval) (σ : heap) : result Written :=
  let '(filename, open_fp) :=
    if is_str_or_bytes fp then (fp, true)
    else match fp with
         | VPath p => (VStr p, true)
         | _ => (VStr "", false)
         end in
  let filename :=
    if negb (truthy filename) then
      match name_of fp with
      | Some n => if is_str_or_bytes n then n else filename
      | None => filename
      end
    else filename in
  suffix ← match filename with
           | VStr s => Ok (lower (Path_suffix s))
           | _ => Raise TypeError
           end;
  if negb (is_str "SVG" format) && negb (String.eqb suffix ".svg")
  then Raise ValueError
  else
    fp ← (if open_fp
          then match filename with
               | VStr s => open_wb s
               | _ => Raise TypeError
               end
          else Ok fp);
    e ← deref σ (svg (canvas self));
    _ ← writexml e fp;
    Ok (mkWritten fp open_fp e).

(** [new(self, size, color=None)], a function of the module. *)
Definition new (self size color : pyval) (σ : heap) : result (Image * heap) :=
  '(im, σ1) ← Image_init size σ;
  if truthy color then
    args ← py_iter color;
    c ← Color_of args;
    im ← setFillColor c im;
    Ok (im, σ1)
  else Ok (im, σ1).

(** A call [new(...)] with positional and keyword arguments. *)
Definition call_new (args : list pyval) (kwargs : list (string * pyval)) (σ : heap)
    : result (Image * heap) :=
  vs ← bind_params [("self", None); ("size", None); ("color", Some VNone)] args kwargs;
  match vs with
  | [self; size; color] => new self size color σ
  | _ => Raise TypeError
  end.

(** [load(fp, mode='r')], a function of the module; [None] is its bare
    [return]. *)
Definition load (fp mode : pyval) (σ : heap) : result (option Image * heap) :=
  if negb (is_str "r" mode) then
    _ ← percent_r mode;
    Raise ValueError
  else if (match fp with VStringIO _ => true | _ => false end) then Raise ValueError
  else
    filename ← match fp with
               | VPath p => Path_resolve p
               | VStr s => Ok s
               | _ => Raise RuntimeError
               end;
    drawing ← svg2rlg filename;
    match drawing with
    | None => Ok (None, σ)
    | Some drawing =>
        '(im, σ1) ← Image_init (VTuple [Drawing.width drawing; Drawing.height drawing]) σ;
        σ2 ← renderSVG_draw drawing (canvas im) σ1;
        Ok (Some im, σ2)
    end.

End Image.

(* ===================================================================== *)
(** ** The specification's wording of the crop rectangle *)
(* ===================================================================== *)

(** "Compute the current aspect ratio from the existing bounding box and the
    requested aspect ratio from box; if the current ratio exceeds the
    requested ratio, shrink width (new_width = requested_ratio x
    current_bottom) and re-center horizontally; otherwise shrink height
    (new_height = current_right / requested_ratio) and re-center
    vertically."  The bounding box is (left, upper, right, bottom). *)
Definition spec_viewbox (left upper right bottom requested : float) : list float :=
  let current := PrimFloat.div (PrimFloat.sub right left) (PrimFloat.sub bottom upper) in
  if PrimFloat.ltb requested current then
    let new_width := PrimFloat.mul requested bottom in
    [PrimFloat.add left (PrimFloat.div (PrimFloat.sub right new_width) 2);
     upper; new_width; bottom]
  else
    let new_height := PrimFloat.div right requested in
    [left;
     PrimFloat.add upper (PrimFloat.div (PrimFloat.sub bottom new_height) 2);
     right; new_height].

(** "size must always describe two positive numeric dimensions", and the
    part of it that [__init__] asserts. *)
Definition two_numeric (size : pyval) : Prop :=
  exists w h, size = VTuple [VNum w; VNum h].

Definition two_positive (size : pyval) : bool :=
  match size with
  | VTuple [VNum w; VNum h] => num_positive w && num_positive h
  | _ => false
  end.

(** A box of four integer pixel coordinates. *)
Definition pixel_box (left upper right lower : Z) : pyval :=
  VTuple [VInt left; VInt upper; VInt right; VInt lower].

(** "Accepts a path (string or path object) or an open file-like object":
    the filename such a target gives ("from the path, or the file object's
    name", empty when it has none), and whether it is a path.  A path object
    never prints as the empty string; a file object whose name is a byte
    string is not among these targets. *)
Definition text_target (fp : pyval) : option (string * bool) :=
  match fp with
  | VStr s => Some (s, true)
  | VPath p => if String.eqb p "" then None else Some (p, true)
  | VFile (Some (VStr n)) _ _ => Some (n, false)
  | VFile (Some (VBytes _)) _ _ => None
  | VFile _ _ _ | VStringIO _ => Some ("", false)
  | _ => None
  end.

(** The handles of the data model: made by construction, [new], [load],
    [resize] or [crop]. *)
Inductive produced `{External} : Image -> Prop :=
| by_construct size σ im σ' :
    Image_init size σ = Ok (im, σ') -> produced im
| by_new self size color σ im σ' :
    new self size color σ = Ok (im, σ') -> produced im
| by_load fp mode σ im σ' :
    load fp mode σ = Ok (Some im, σ') -> produced im
| by_resize self size σ im σ' :
    resize self size σ = Ok (im, σ') -> produced im
| by_crop self box σ im σ' :
    crop self box σ = Ok (im, σ') -> produced im.

(* ===================================================================== *)
(** ** A reference behaviour of the libraries, to run the module *)
(* ===================================================================== *)

(** [PurePosixPath(s).name]: the last component, empty and [.] components
    dropped. *)
Fixpoint split_slash (acc : string) (s : string) : list string :=
  match s with
  | EmptyString => [acc]
  | String c s' =>
      if Ascii.eqb c "/"%char then acc :: split_slash "" s'
      else split_slash (acc +:+ String c EmptyString) s'
  end.

Definition posix_name (s : string) : string :=
  List.last (List.filter (fun c => negb (String.eqb c "" || String.eqb c "."))
                         (split_slash "" s)) "".

(** The part of [name] from its last dot, when that dot is neither its first
    nor its last character. *)
Fixpoint last_dot (s : string) : option nat :=
  match s with
  | EmptyString => None
  | String c s' =>
      match last_dot s' with
      | Some i => Some (S i)
      | None => if Ascii.eqb c "."%char then Some O else None
      end
  end.

Definition posix_suffix (s : string) : string :=
  let name := posix_name s in
  match last_dot name with
  | Some (S i) =>
      if Nat.ltb (S i) (String.length name - 1)
      then String.substring (S i) (String.length name - S i) name
      else ""
  | _ => ""
  end.

(** A canvas starts with its dimensions and the view-box [0 0 w h] and
    takes a color of numbers; drawing appends the shapes; two files exist,
    one of which does not decode; files open, in binary mode as asked; the
    serializer writes [str], which a text file and a [StringIO] take and a
    binary file refuses. *)
Definition reference : External := {|
  renderSVG_SVGCanvas size :=
    w ← py_getitem size 0;
    h ← py_getitem size 1;
    match w, h with
    | VNum w, VNum h =>
        Ok (mkElement
              (<["viewBox" := [TNum (PInt 0); TNum (PInt 0); TNum w; TNum h]]>
                 (<["height" := [TNum h]]> (<["width" := [TNum w]]> ∅)))
              [])
    | _, _ => Raise TypeError
    end;
  setFillColor_raises c :=
    match c with
    | mkColor components =>
        if forallb is_number components then None else Some TypeError
    end;
  renderSVG_draw d c σ :=
    e ← deref σ (svg c);
    Ok (<[svg c := mkElement (attributes e) (childNodes e ++ Drawing.shapes d)]> σ);
  svg2rlg filename :=
    if String.eqb filename "/srv/logo.svg"
    then Ok (Some (Drawing.mk (VFloat 120) (VFloat 80) ["rect"; "circle"]))
    else if String.eqb filename "/srv/broken.svg" then Ok None
    else Raise OSError;
  Path_resolve p := Ok p;
  Path_name := posix_name;
  Path_suffix := posix_suffix;
  open_wb filename := Ok (VFile (Some (VStr filename)) None true);
  writexml e fp :=
    match fp with
    | VFile _ _ false | VStringIO _ => Ok tt
    | VFile _ _ true => Raise TypeError
    | _ => Raise AttributeError
    end
|}.

(** The document of a new canvas of the given size, and a handle on it at
    location 0: what [Image((w, h))] makes on an empty heap. *)
Definition canvas_doc (viewBox : list token) (w h : num) : Element :=
  mkElement (<["viewBox" := viewBox]>
               (<["height" := [TNum h]]> (<["width" := [TNum w]]> ∅)))
            [].

Definition handle (w h : num) : Image :=
  mkImage (mkCanvas O None) (VTuple [VNum w; VNum h]) VNone None None None None.

(** A square of side 100, bounding box (0, 0, 100, 100). *)
Definition square_doc : Element :=
  canvas_doc [TNum (PInt 0); TNum (PInt 0); TNum (PInt 100); TNum (PInt 100)]
             (PInt 100) (PInt 100).
Definition square : Image := handle (PInt 100) (PInt 100).

(** What [crop((0, 0, 50, 100))] makes of the square: its document, and the
    handle on it, at location 2 behind the source and the new canvas's own
    element. *)
Definition cropped_doc : Element :=
  with_attribute "height" [TNum (PInt 100)]
    (with_attribute "width" [TNum (PInt 50)]
       (with_attribute "viewBox"
          [TNum (PFloat 25); TNum (PFloat 0); TNum (PFloat 50); TNum (PFloat 100)]
          square_doc)).
Definition cropped : Image :=
  mkImage (mkCanvas 2%nat None) (VTuple [VInt 50; VInt 100]) VNone None None None None.

(** What [crop((0, 0, 10, 100))] makes of the square: the view-box
    (45, 0, 10, 100), whose third number [crop] reads as the right edge. *)
Definition narrow_doc : Element :=
  with_attribute "height" [TNum (PInt 100)]
    (with_attribute "width" [TNum (PInt 10)]
       (with_attribute "viewBox"
          [TNum (PFloat 45); TNum (PFloat 0); TNum (PFloat 10); TNum (PFloat 100)]
          square_doc)).
Definition narrow : Image :=
  mkImage (mkCanvas 2%nat None) (VTuple [VInt 10; VInt 100]) VNone None None None None.

(* ===================================================================== *)
(** ** The rest of the class: properties and scoped use *)
(* ===================================================================== *)

(** [Image.width] and [Image.height], the properties [self.size[0]] and
    [self.size[1]]. *)
Definition width (self : Image) : result pyval := py_getitem (size self) 0.
Definition height (self : Image) : result pyval := py_getitem (size self) 1.

(** [Image.__enter__(self)] *)
Definition __enter__ (self : Image) : Image := self.

(** [Image.__exit__(self, *args)].  The attribute [_exclusive_fp], which no
    method of the module sets, is given beside the handle: [None] when the
    handle does not have it, and then [getattr] falls back on [False].
    Nothing is caught here: what the two calls raise leaves the method
    before [fp] is reset. *)
Definition __exit__ (self : Image) (_exclusive_fp : option pyval) : result Image :=
  _ ← (if (match fp self with Some _ => true | None => false end)
          && (match _exclusive_fp with Some v => truthy v | None => false end)
       then
         _ ← match _close__fp self with
             | Some f => call f
             | None => Ok tt
             end;
         match fp self with
         | Some f => if truthy f then call_close f else Ok tt
         | None => Raise AttributeError
         end
       else Ok tt);
  Ok (set_fp VNone self).

(* ===================================================================== *)
(** ** More inputs to run the module on *)
(* ===================================================================== *)

(** What [resize((30, 40))] makes of the square, and the heap it leaves. *)
Definition resized : Image :=
  mkImage (mkCanvas 2%nat None) (VTuple [VInt 30; VInt 40]) VNone None None None None.
Definition resized_heap : list Element :=
  [square_doc;
   canvas_doc [TNum (PInt 0); TNum (PInt 0); TNum (PInt 30); TNum (PInt 40)]
              (PInt 30) (PInt 40);
   square_doc].

(** A document without a view-box, and one whose view-box is separated by
    commas, which [str.split] leaves in one piece. *)
Definition bare_doc : Element := mkElement ∅ ["g"].
Definition comma_doc : Element :=
  mkElement (<["viewBox" := [TWord "0,0,100,100"]]> ∅) ["g"].

(** Handles that hold a file: one whose [close()] returns and one whose
    [close()] raises. *)
Definition held : Image :=
  mkImage (mkCanvas O None) (VTuple [VInt 100; VInt 100]) VNone
          (Some (VFile (Some (VStr "a.svg")) None true)) None None None.
Definition busy : Image :=
  mkImage (mkCanvas O None) (VTuple [VInt 100; VInt 100]) VNone
          (Some (VFile (Some (VStr "a.svg")) (Some OSError) true)) None None None.

(** The libraries on a disk that cannot be written: opening fails, and so
    does writing to a file object. *)
Definition read_only : External := {|
  renderSVG_SVGCanvas := @renderSVG_SVGCanvas reference;
  setFillColor_raises := @setFillColor_raises reference;
  renderSVG_draw := @renderSVG_draw reference;
  svg2rlg := @svg2rlg reference;
  Path_resolve := @Path_resolve reference;
  Path_name := posix_name;
  Path_suffix := posix_suffix;
  open_wb filename := Raise OSError;
  writexml e fp := Raise OSError
|}.

(* ===================================================================== *)
(** ** Facts about the Python layer and the heap *)
(* ===================================================================== *)

Lemma bind_Ok {A B} (m : result A) (f : A -> result B) (b : B) :
  m ≫= f = Ok b -> exists a, m = Ok a /\ f a = Ok b.
Proof. destruct m as [a|e]; simpl; [eauto | discriminate]. Qed.

(** Undo one monadic step of a hypothesis [x ← m; k = Ok r]. *)
Ltac step H :=
  let a := fresh "a" in
  let E := fresh "E" in
  apply bind_Ok in H; destruct H as (a & E & H).

Lemma float_div_Ok (x y : float) :
  PrimFloat.eqb y 0 = false -> float_div x y = Ok (PrimFloat.div x y).
Proof. intros Hy. unfold float_div. now rewrite Hy. Qed.

Lemma float_div_zero (x y : float) :
  PrimFloat.eqb y 0 = true -> float_div x y = Raise ZeroDivisionError.
Proof. intros Hy. unfold float_div. now rewrite Hy. Qed.

Lemma deref_Some (σ : heap) (l : loc) (e : Element) :
  σ !! l = Some e -> deref σ l = Ok e.
Proof. intros Hl. unfold deref. now rewrite Hl. Qed.

Lemma deref_Ok (σ : heap) (l : loc) (e : Element) :
  deref σ l = Ok e -> σ !! l = Some e.
Proof. unfold deref. destruct (σ !! l); intros [=]. now subst. Qed.

Lemma cloneNode_Some (σ : heap) (l : loc) (e : Element) :
  σ !! l = Some e -> cloneNode l σ = Ok (length σ, σ ++ [e]).
Proof. intros Hl. unfold cloneNode. now rewrite (deref_Some _ _ _ Hl). Qed.

Lemma setAttribute_Some (σ : heap) (l : loc) (e : Element) k v :
  σ !! l = Some e ->
  setAttribute l k v σ = Ok (<[l := with_attribute k v e]> σ).
Proof. intros Hl. unfold setAttribute. now rewrite (deref_Some _ _ _ Hl). Qed.

(** Writing to one element leaves every other element alone. *)
Lemma setAttribute_frame (σ σ' : heap) (l l' : loc) k v :
  setAttribute l k v σ = Ok σ' -> l <> l' -> σ' !! l' = σ !! l'.
Proof.
  unfold setAttribute. intros Hs Hne. step Hs. injection Hs as <-.
  now apply list_lookup_insert_ne.
Qed.

Lemma getAttribute_with_eq k v e : getAttribute (with_attribute k v e) k = v.
Proof. unfold getAttribute, with_attribute. simpl. now rewrite lookup_insert_eq. Qed.

Lemma setAttribute_lookup (σ : heap) (l : loc) (e : Element) k v :
  σ !! l = Some e ->
  exists σ', setAttribute l k v σ = Ok σ' /\
             σ' !! l = Some (with_attribute k v e) /\
             length σ' = length σ.
Proof.
  intros Hl. exists (<[l := with_attribute k v e]> σ).
  split; [now apply setAttribute_Some|].
  split; [|now rewrite length_insert].
  apply list_lookup_insert_eq. now apply lookup_lt_Some with e.
Qed.

Lemma lookup_clone (σ : heap) (e0 e : Element) :
  (σ ++ [e0; e]) !! S (length σ) = Some e.
Proof.
  rewrite lookup_app_r by lia.
  now replace (S (length σ) - length σ)%nat with 1%nat by lia.
Qed.

Section Proofs.
Context `{External}.

Lemma setFillColor_Ok (c : Color) (self self' : Image) :
  setFillColor c self = Ok self' -> self' = set_fillColor c self.
Proof.
  unfold setFillColor. destruct (setFillColor_raises c); intros [=]. now subst.
Qed.

(** What a successful [__init__] did. *)
Lemma Image_init_Ok (sz : pyval) (σ σ' : heap) (im : Image) :
  Image_init sz σ = Ok (im, σ') ->
  exists e a b,
    renderSVG_SVGCanvas sz = Ok e /\
    py_iter sz = Ok [VNum a; VNum b] /\
    im = mkImage (mkCanvas (length σ) None) (VTuple [VNum a; VNum b])
                 VNone None None None None /\
    σ' = σ ++ [e].
Proof.
  unfold Image_init. destruct (valid_size sz) eqn:Hv; [|discriminate].
  intros Hi. step Hi. simpl in Hi. step Hi. injection Hi as <- <-.
  exists a.
  unfold valid_size, item_is_number, py_getitem in Hv.
  destruct sz as [| | | |items|items| | |]; try discriminate Hv;
    simpl in Hv, E0; injection E0 as <-;
    destruct items as [|x [|y [|z items]]]; try discriminate Hv;
    destruct x; try discriminate Hv; destruct y; try discriminate Hv;
    eauto 10.
Qed.

Lemma Image_init_size (sz : pyval) (σ σ' : heap) (im : Image) :
  Image_init sz σ = Ok (im, σ') -> two_numeric (size im).
Proof.
  intros Hi. apply Image_init_Ok in Hi as (e & a & b & _ & _ & -> & _).
  now exists a, b.
Qed.

(** The copy that [resize] and [crop] start from: a fresh handle of the given
    size on a clone of the source's document.  The heap gains the new
    canvas's own element and then the clone. *)
Lemma clone_step (self : Image) (sz : pyval) (σ σ1 : heap) (copy : Image) (e : Element) :
  Image_init sz σ = Ok (copy, σ1) ->
  σ !! svg (canvas self) = Some e ->
  exists e0,
    σ1 = σ ++ [e0] /\
    svg (canvas copy) = length σ /\
    cloneNode (svg (canvas self)) σ1 = Ok (S (length σ), σ ++ [e0; e]).
Proof.
  intros Hi Hl. apply Image_init_Ok in Hi as (e0 & a & b & _ & _ & -> & ->).
  exists e0. split; [reflexivity|]. split; [reflexivity|].
  rewrite (cloneNode_Some _ _ e).
  - rewrite length_app, <- app_assoc. simpl. do 3 f_equal. lia.
  - now apply lookup_app_l_Some.
Qed.

(** The steps of a [crop] that was given a box and returned. *)
Lemma crop_box_Ok (self : Image) (box : pyval) (σ σ' : heap) (copy : Image) :
  crop self box σ = Ok (copy, σ') ->
  truthy box = true ->
  exists copy0 σ1 l σ2 w h vb σ3 σ4,
    Image_init (size self) σ = Ok (copy0, σ1) /\
    cloneNode (svg (canvas self)) σ1 = Ok (l, σ2) /\
    span box 2 0 = Ok w /\
    span box 3 1 = Ok h /\
    copy = set_size (VTuple [VNum w; VNum h]) (set_svg l copy0) /\
    setAttribute l "viewBox" vb σ2 = Ok σ3 /\
    setAttribute l "width" [TNum w] σ3 = Ok σ4 /\
    setAttribute l "height" [TNum h] σ4 = Ok σ'.
Proof.
  unfold crop. intros Hc Hbox.
  step Hc. destruct a as [copy0 σ1]. simpl in Hc.
  step Hc. destruct a as [l σ2]. simpl in Hc. rewrite Hbox in Hc.
  do 11 step Hc. simpl in Hc. do 5 step Hc.
  injection Hc as <- <-.
  exists copy0, σ1, l, σ2, a9, a10, a11, a12, a13.
  repeat split; assumption.
Qed.

(** The steps of a [crop] that was given no box. *)
Lemma crop_None_Ok (self : Image) (box : pyval) (σ σ' : heap) (copy : Image) :
  crop self box σ = Ok (copy, σ') ->
  truthy box = false ->
  exists copy0 σ1 l,
    Image_init (size self) σ = Ok (copy0, σ1) /\
    cloneNode (svg (canvas self)) σ1 = Ok (l, σ') /\
    copy = set_svg l copy0.
Proof.
  unfold crop. intros Hc Hbox.
  step Hc. destruct a as [copy0 σ1]. simpl in Hc.
  step Hc. destruct a as [l σ2]. simpl in Hc. rewrite Hbox in Hc.
  injection Hc as <- <-. now exists copy0, σ1, l.
Qed.

(** A [crop] with a box on a well-formed handle, run to its end: the
    hypotheses say that each quotient is defined. *)
Lemma crop_box_run (self : Image) (box : pyval) (σ σ1 : heap) (copy0 : Image)
    (e : Element) (x0 x1 x2 x3 : float) (rest : list float)
    (w h : num) (requested : float) :
  Image_init (size self) σ = Ok (copy0, σ1) ->
  σ !! svg (canvas self) = Some e ->
  mapR float_of_token (getAttribute e "viewBox") = Ok (x0 :: x1 :: x2 :: x3 :: rest) ->
  truthy box = true ->
  PrimFloat.eqb (PrimFloat.sub x3 x1) 0 = false ->
  span box 2 0 = Ok w ->
  span box 3 1 = Ok h ->
  num_truediv w h = Ok requested ->
  (PrimFloat.ltb requested
     (PrimFloat.div (PrimFloat.sub x2 x0) (PrimFloat.sub x3 x1)) = true
   \/ PrimFloat.eqb requested 0 = false) ->
  exists σ',
    crop self box σ
      = Ok (set_size (VTuple [VNum w; VNum h]) (set_svg (S (length σ)) copy0), σ') /\
    σ' !! S (length σ)
      = Some (with_attribute "height" [TNum h]
                (with_attribute "width" [TNum w]
                   (with_attribute "viewBox"
                      ((fun x => TNum (PFloat x)) <$> spec_viewbox x0 x1 x2 x3 requested)
                      e))).
Proof.
  intros Hinit He Hbbox Hbox Hcur Hw Hh Hreq Hbranch.
  destruct (clone_step self _ _ _ _ _ Hinit He) as (e0 & -> & _ & Hclone).
  pose proof (lookup_clone σ e0 e) as Hl.
  assert (Hself : (σ ++ [e0; e]) !! svg (canvas self) = Some e)
    by now apply lookup_app_l_Some.
  (* the rectangle, whichever branch is taken *)
  assert (Hrect :
    (if PrimFloat.ltb requested
          (PrimFloat.div (PrimFloat.sub x2 x0) (PrimFloat.sub x3 x1))
     then shrink_width requested (x0 :: x1 :: x2 :: x3 :: rest)
     else shrink_height requested (x0 :: x1 :: x2 :: x3 :: rest))
    = Ok (spec_viewbox x0 x1 x2 x3 requested ++ rest)).
  { unfold spec_viewbox.
    destruct (PrimFloat.ltb requested _) eqn:Hlt.
    - reflexivity.
    - destruct Hbranch as [|Hnz]; [discriminate|].
      unfold shrink_height. simpl. now rewrite (float_div_Ok _ _ Hnz). }
  assert (Hfmt : forall l4, length l4 = 4%nat ->
    mapR (format_field (PFloat <$> (l4 ++ rest))) [0; 1; 2; 3]%nat
    = Ok ((fun x => TNum (PFloat x)) <$> l4)).
  { intros [|a [|b [|c [|d [|]]]]]; try discriminate. reflexivity. }
  set (vb := (fun x => TNum (PFloat x)) <$> spec_viewbox x0 x1 x2 x3 requested).
  destruct (setAttribute_lookup _ _ _ "viewBox" vb Hl) as (σ3 & Hs3 & Hl3 & _).
  destruct (setAttribute_lookup _ _ _ "width" [TNum w] Hl3) as (σ4 & Hs4 & Hl4 & _).
  destruct (setAttribute_lookup _ _ _ "height" [TNum h] Hl4) as (σ5 & Hs5 & Hl5 & _).
  exists σ5. split; [|exact Hl5].
  unfold crop. rewrite Hinit. simpl. rewrite Hclone. simpl. rewrite Hbox.
  unfold getbbox. rewrite (deref_Some _ _ _ Hself). simpl. rewrite Hbbox.
  simpl. rewrite (float_div_Ok _ _ Hcur). simpl.
  rewrite Hw. simpl. rewrite Hh. simpl. rewrite Hreq. simpl.
  rewrite Hrect. simpl.
  rewrite Hfmt by (unfold spec_viewbox; now destruct (PrimFloat.ltb _ _)).
  simpl. fold vb. rewrite Hs3. simpl. rewrite Hs4. simpl. rewrite Hs5.
  reflexivity.
Qed.


Lemma setAttribute_Ok (σ σ' : heap) (l : loc) k v :
  setAttribute l k v σ = Ok σ' ->
  exists e, σ !! l = Some e /\ σ' !! l = Some (with_attribute k v e).
Proof.
  intros Hs. unfold setAttribute in Hs. step Hs. injection Hs as <-.
  apply deref_Ok in E. exists a. split; [exact E|].
  apply list_lookup_insert_eq. now apply lookup_lt_Some with a.
Qed.

(** C3: when [crop] is given a box, the [width] attribute written onto the
    cloned document is formatted from the width of the new handle's size and
    the [height] attribute from its height: each from its own dimension. *)
Theorem crop_width_height_attributes (self : Image) (box : pyval) (σ σ' : heap)
    (copy : Image) :
  crop self box σ = Ok (copy, σ') ->
  truthy box = true ->
  exists w h e',
    size copy = VTuple [VNum w; VNum h] /\
    σ' !! svg (canvas copy) = Some e' /\
    getAttribute e' "width" = [TNum w] /\
    getAttribute e' "height" = [TNum h].
Proof.
  intros Hc Hbox.
  destruct (crop_box_Ok _ _ _ _ _ Hc Hbox)
    as (copy0 & σ1 & l & σ2 & w & h & vb & σ3 & σ4 &
        _ & _ & _ & _ & -> & _ & Hs4 & Hs5).
  apply setAttribute_Ok in Hs4 as (e3 & _ & Hl4).
  apply setAttribute_Ok in Hs5 as (e4 & Hl4' & Hl5).
  rewrite Hl4 in Hl4'. injection Hl4' as <-.
  exists w, h. eexists. split; [reflexivity|]. split; [exact Hl5|].
  split.
  - unfold getAttribute, with_attribute. simpl.
    rewrite lookup_insert_ne by discriminate. now rewrite lookup_insert_eq.
  - apply getAttribute_with_eq.
Qed.

(** C4: every handle made by construction, [new], [load], [resize] or [crop]
    has a size of exactly two numbers.  (Nothing makes them positive.) *)
Theorem produced_size_numeric (im : Image) :
  produced im -> two_numeric (size im).
Proof.
  intros [sz σ im' σ' Hi | self sz color σ im' σ' Hn | fp' mode' σ im' σ' Hl
         | self sz σ im' σ' Hr | self box σ im' σ' Hc].
  - exact (Image_init_size _ _ _ _ Hi).
  - unfold new in Hn. step Hn. destruct a as [im0 σ1]. simpl in Hn.
    pose proof (Image_init_size _ _ _ _ E) as Hsz.
    destruct (truthy color).
    + do 3 step Hn. injection Hn as <- <-.
      now rewrite (setFillColor_Ok _ _ _ E2).
    + now injection Hn as <- <-.
  - unfold load in Hl.
    destruct (negb (is_str "r" mode')); [destruct (percent_r mode'); discriminate|].
    destruct (match fp' with VStringIO _ => true | _ => false end); [discriminate|].
    do 2 step Hl. destruct a0 as [d|]; [|discriminate].
    step Hl. destruct a0 as [im0 σ1]. simpl in Hl. step Hl.
    injection Hl as <- <-. exact (Image_init_size _ _ _ _ E1).
  - unfold resize in Hr. step Hr. destruct a as [im0 σ1]. simpl in Hr.
    step Hr. destruct a as [l σ2]. simpl in Hr. injection Hr as <- <-.
    exact (Image_init_size _ _ _ _ E).
  - destruct (truthy box) eqn:Hbox.
    + destruct (crop_box_Ok _ _ _ _ _ Hc Hbox)
        as (copy0 & σ1 & l & σ2 & w & h & vb & σ3 & σ4 &
            _ & _ & _ & _ & -> & _).
      now exists w, h.
    + destruct (crop_None_Ok _ _ _ _ _ Hc Hbox) as (copy0 & σ1 & l & Hi & _ & ->).
      exact (Image_init_size _ _ _ _ Hi).
Qed.

(** C9: [resize((w2, h2))] returns a new handle of size [(w2, h2)] on a
    clone of the source's document: a different object with the same
    content, so that whatever is later written to it leaves the source's
    document as it was.  The same holds for [crop], whose own writes go to
    the clone. *)
Theorem resize_crop_independent (self : Image) (σ : heap) (e : Element) :
  σ !! svg (canvas self) = Some e ->
  (forall w2 h2 e0,
     renderSVG_SVGCanvas (VTuple [VNum w2; VNum h2]) = Ok e0 ->
     exists copy σ',
       resize self (VTuple [VNum w2; VNum h2]) σ = Ok (copy, σ') /\
       size copy = VTuple [VNum w2; VNum h2] /\
       svg (canvas copy) <> svg (canvas self) /\
       σ' !! svg (canvas copy) = Some e /\
       forall e', <[svg (canvas copy) := e']> σ' !! svg (canvas self) = Some e) /\
  (forall box copy σ',
     crop self box σ = Ok (copy, σ') ->
     svg (canvas copy) <> svg (canvas self) /\
     σ' !! svg (canvas self) = Some e /\
     forall e', <[svg (canvas copy) := e']> σ' !! svg (canvas self) = Some e).
Proof.
  intros He.
  assert (Hlt : (svg (canvas self) < length σ)%nat) by now apply lookup_lt_Some with e.
  assert (Hsrc : forall e0, (σ ++ [e0; e]) !! svg (canvas self) = Some e)
    by (intros e0; now apply lookup_app_l_Some).
  split.
  - intros w2 h2 e0 Hcanvas.
    assert (Hi : Image_init (VTuple [VNum w2; VNum h2]) σ
                 = Ok (mkImage (mkCanvas (length σ) None) (VTuple [VNum w2; VNum h2])
                               VNone None None None None, σ ++ [e0])).
    { unfold Image_init. simpl. now rewrite Hcanvas. }
    destruct (clone_step self _ _ _ _ _ Hi He) as (e1 & Heq & _ & Hclone).
    apply app_inv_head in Heq. injection Heq as <-.
    eexists _, _. split.
    { unfold resize. rewrite Hi. simpl. rewrite Hclone. reflexivity. }
    simpl. split; [reflexivity|]. split; [lia|].
    split; [apply lookup_clone|].
    intros e'. rewrite list_lookup_insert_ne by lia. apply Hsrc.
  - intros box copy σ' Hc.
    destruct (truthy box) eqn:Hbox.
    + destruct (crop_box_Ok _ _ _ _ _ Hc Hbox)
        as (copy0 & σ1 & l & σ2 & w & h & vb & σ3 & σ4 &
            Hi & Hcl & _ & _ & -> & Hs3 & Hs4 & Hs5).
      destruct (clone_step self _ _ _ _ _ Hi He) as (e0 & -> & _ & Hclone).
      rewrite Hclone in Hcl. injection Hcl as <- <-.
      simpl.
      assert (Hsrc' : σ' !! svg (canvas self) = Some e).
      { rewrite (setAttribute_frame _ _ _ _ _ _ Hs5) by lia.
        rewrite (setAttribute_frame _ _ _ _ _ _ Hs4) by lia.
        rewrite (setAttribute_frame _ _ _ _ _ _ Hs3) by lia.
        apply Hsrc. }
      split; [lia|]. split; [exact Hsrc'|].
      intros e'. now rewrite list_lookup_insert_ne by lia.
    + destruct (crop_None_Ok _ _ _ _ _ Hc Hbox) as (copy0 & σ1 & l & Hi & Hcl & ->).
      destruct (clone_step self _ _ _ _ _ Hi He) as (e0 & -> & _ & Hclone).
      rewrite Hclone in Hcl. injection Hcl as <- <-.
      simpl. split; [lia|]. split; [apply Hsrc|].
      intros e'. rewrite list_lookup_insert_ne by lia. apply Hsrc.
Qed.

Lemma int_truediv_nonzero (x y : Z) (e : exn) :
  y <> 0 -> num_truediv (PInt x) (PInt y) = Raise e -> e = OverflowError.
Proof.
  intros Hy. unfold num_truediv.
  destruct (Z.eqb_spec y 0) as [|_]; [contradiction|].
  destruct (SFdiv prec emax (Z2SF x) (Z2SF y)); intros [=]; congruence.
Qed.

Lemma span_pixel_box (b0 b1 b2 b3 : Z) :
  span (pixel_box b0 b1 b2 b3) 2 0 = Ok (PInt (b2 - b0)) /\
  span (pixel_box b0 b1 b2 b3) 3 1 = Ok (PInt (b3 - b1)).
Proof. split; reflexivity. Qed.

(** C10: [crop] with a box of four pixel coordinates divides by the height
    of the bounding box, by the height of the box and, when the current ratio
    does not exceed the requested one, by the requested ratio.  When the
    bounding box's height is nonzero, [box[3] != box[1]] and the requested
    ratio is nonzero or below the current ratio, no division by zero occurs;
    when [box[3] == box[1]], or when the bounding box's height is zero,
    [crop] fails with a division by zero and returns no handle. *)
Theorem crop_division (self : Image) (σ σ1 : heap) (copy0 : Image) (e : Element)
    (x0 x1 x2 x3 : float) (rest : list float) (b0 b1 b2 b3 : Z) :
  Image_init (size self) σ = Ok (copy0, σ1) ->
  σ !! svg (canvas self) = Some e ->
  mapR float_of_token (getAttribute e "viewBox") = Ok (x0 :: x1 :: x2 :: x3 :: rest) ->
  (PrimFloat.eqb (PrimFloat.sub x3 x1) 0 = false ->
   b3 <> b1 ->
   (forall requested,
      num_truediv (PInt (b2 - b0)) (PInt (b3 - b1)) = Ok requested ->
      PrimFloat.ltb requested
        (PrimFloat.div (PrimFloat.sub x2 x0) (PrimFloat.sub x3 x1)) = true
      \/ PrimFloat.eqb requested 0 = false) ->
   crop self (pixel_box b0 b1 b2 b3) σ <> Raise ZeroDivisionError) /\
  (b3 = b1 ->
   crop self (pixel_box b0 b1 b2 b3) σ = Raise ZeroDivisionError) /\
  (PrimFloat.eqb (PrimFloat.sub x3 x1) 0 = true ->
   crop self (pixel_box b0 b1 b2 b3) σ = Raise ZeroDivisionError).
Proof.
  intros Hinit He Hbbox.
  destruct (span_pixel_box b0 b1 b2 b3) as [Hw Hh].
  split; [|split].
  - intros Hcur Hne Hbranch.
    destruct (num_truediv (PInt (b2 - b0)) (PInt (b3 - b1))) as [requested|err] eqn:Hreq.
    + destruct (crop_box_run self (pixel_box b0 b1 b2 b3) _ _ _ _ _ _ _ _ _ _ _ _
                  Hinit He Hbbox eq_refl Hcur Hw Hh Hreq (Hbranch _ eq_refl))
        as (σ' & -> & _).
      discriminate.
    + assert (err = OverflowError) as ->
        by (apply (int_truediv_nonzero (b2 - b0) (b3 - b1)); [lia | exact Hreq]).
      destruct (clone_step self _ _ _ _ _ Hinit He) as (e0 & -> & _ & Hclone).
      assert (Hself : (σ ++ [e0; e]) !! svg (canvas self) = Some e)
        by now apply lookup_app_l_Some.
      unfold crop. rewrite Hinit. simpl. rewrite Hclone. simpl.
      unfold getbbox. rewrite (deref_Some _ _ _ Hself). simpl. rewrite Hbbox.
      simpl. rewrite (float_div_Ok _ _ Hcur). simpl.
      rewrite Hreq. discriminate.
  - intros ->.
    destruct (clone_step self _ _ _ _ _ Hinit He) as (e0 & -> & _ & Hclone).
    assert (Hself : (σ ++ [e0; e]) !! svg (canvas self) = Some e)
      by now apply lookup_app_l_Some.
    unfold crop. rewrite Hinit. simpl. rewrite Hclone. simpl.
    unfold getbbox. rewrite (deref_Some _ _ _ Hself). simpl. rewrite Hbbox.
    simpl.
    destruct (PrimFloat.eqb (PrimFloat.sub x3 x1) 0) eqn:Hcur.
    + now rewrite (float_div_zero _ _ Hcur).
    + rewrite (float_div_Ok _ _ Hcur). simpl.
      unfold num_truediv. now rewrite Z.sub_diag.
  - intros Hcur.
    destruct (clone_step self _ _ _ _ _ Hinit He) as (e0 & -> & _ & Hclone).
    assert (Hself : (σ ++ [e0; e]) !! svg (canvas self) = Some e)
      by now apply lookup_app_l_Some.
    unfold crop. rewrite Hinit. simpl. rewrite Hclone. simpl.
    unfold getbbox. rewrite (deref_Some _ _ _ Hself). simpl. rewrite Hbbox.
    simpl. now rewrite (float_div_zero _ _ Hcur).
Qed.

Lemma is_str_true (s : string) (v : pyval) : is_str s v = true <-> v = VStr s.
Proof.
  unfold is_str. split.
  - destruct v; try discriminate. intros Hs. apply String.eqb_eq in Hs. now subst.
  - intros ->. apply String.eqb_refl.
Qed.

Lemma is_str_false (s : string) (v : pyval) : is_str s v = false <-> v <> VStr s.
Proof.
  rewrite <- is_str_true. now destruct (is_str s v).
Qed.

(** The body of [new], once [size] and [color] are bound: a handle of that
    size, with the fill color set from the components of [color] when the
    canvas takes them. *)
Lemma new_body (self sz : pyval) (components : list pyval) (σ σ1 : heap) (im : Image) :
  Image_init sz σ = Ok (im, σ1) ->
  components <> [] ->
  (length components <= 4)%nat ->
  setFillColor_raises (mkColor components) = None ->
  new self sz (VTuple components) σ = Ok (set_fillColor (mkColor components) im, σ1) /\
  size (set_fillColor (mkColor components) im) = size im.
Proof.
  intros Hi Hne Hlen Hfill. split; [|reflexivity].
  unfold new. rewrite Hi. simpl.
  destruct components as [|c cs]; [contradiction|].
  unfold Color_of.
  replace (Nat.leb (length (c :: cs)) 4) with true
    by (symmetry; apply Nat.leb_le; exact Hlen).
  simpl. unfold setFillColor. now rewrite Hfill.
Qed.

(** C2: a call of [new] with the size as its first argument, and the color
    by keyword or not at all, raises [TypeError]: the first parameter of the
    function is [self], so [size] is not given. *)
Theorem new_size_first_raises (sz color : pyval) (σ : heap) :
  call_new [sz] [("color", color)] σ = Raise TypeError /\
  call_new [sz] [] σ = Raise TypeError.
Proof. split; reflexivity. Qed.

(** C5: [load] with a mode that is not ['r'] raises [TypeError] when the
    mode is a tuple of no or several items (the message ["bad mode %r" %
    mode] does not format) and [ValueError] otherwise; with mode ['r'] it
    raises [ValueError] on a [StringIO] and [RuntimeError] on anything that
    is neither a [str] nor a [Path]. *)
Theorem load_rejects (fp mode : pyval) (σ : heap) :
  (forall items, mode = VTuple items -> length items <> 1%nat ->
   load fp mode σ = Raise TypeError) /\
  (mode <> VStr "r" ->
   (forall items, mode = VTuple items -> length items = 1%nat) ->
   load fp mode σ = Raise ValueError) /\
  (mode = VStr "r" -> (exists buf, fp = VStringIO buf) ->
   load fp mode σ = Raise ValueError) /\
  (mode = VStr "r" ->
   (forall buf, fp <> VStringIO buf) ->
   (forall p, fp <> VPath p) ->
   (forall s, fp <> VStr s) ->
   load fp mode σ = Raise RuntimeError).
Proof.
  unfold load. split; [|split; [|split]].
  - intros items -> Hlen. simpl.
    destruct items as [|x [|y items]]; try reflexivity. now destruct Hlen.
  - intros Hm Htuple. apply is_str_false in Hm. rewrite Hm. simpl.
    destruct mode; try reflexivity.
    specialize (Htuple _ eq_refl).
    destruct items as [|x [|y items]]; try discriminate Htuple. reflexivity.
  - intros -> [buf ->]. reflexivity.
  - intros -> Hio Hpath Hstr.
    destruct fp; try reflexivity.
    + now destruct (Hstr s).
    + now destruct (Hpath p).
    + now destruct (Hio buf).
Qed.

(** C6: on a path string, or a path object that resolves, [load] runs the
    parser on the file name; when the parser yields nothing [load] returns
    [None] and leaves the heap as it was; otherwise it returns a handle whose
    size is the drawing's declared width and height, the drawing rendered
    onto its canvas. *)
Theorem load_path (fp : pyval) (filename : string) (σ : heap) :
  (fp = VStr filename \/ exists p, fp = VPath p /\ Path_resolve p = Ok filename) ->
  (svg2rlg filename = Ok None -> load fp (VStr "r") σ = Ok (None, σ)) /\
  (forall d im σ1 σ2,
     svg2rlg filename = Ok (Some d) ->
     Image_init (VTuple [Drawing.width d; Drawing.height d]) σ = Ok (im, σ1) ->
     renderSVG_draw d (canvas im) σ1 = Ok σ2 ->
     load fp (VStr "r") σ = Ok (Some im, σ2) /\
     size im = VTuple [Drawing.width d; Drawing.height d]).
Proof.
  intros Hfp.
  assert (Hname :
            load fp (VStr "r") σ
            = (drawing ← svg2rlg filename;
               match drawing with
               | None => Ok (None, σ)
               | Some drawing =>
                   '(im, σ1) ← Image_init
                       (VTuple [Drawing.width drawing; Drawing.height drawing]) σ;
                   σ2 ← renderSVG_draw drawing (canvas im) σ1;
                   Ok (Some im, σ2)
               end)).
  { unfold load. destruct Hfp as [-> | (p & -> & Hres)]; simpl.
    - reflexivity.
    - now rewrite Hres. }
  split.
  - intros Hnone. rewrite Hname, Hnone. reflexivity.
  - intros d im σ1 σ2 Hsome Hi Hdraw. split.
    + rewrite Hname, Hsome. simpl. rewrite Hi. simpl. now rewrite Hdraw.
    + apply Image_init_Ok in Hi as (e & a & b & _ & Hit & -> & _).
      simpl in *. now injection Hit as -> ->.
Qed.

(** [save] on a documented target, as one equation. *)
Lemma save_target_run (self : Image) (target format : pyval) (σ : heap)
    (filename : string) (path : bool) :
  text_target target = Some (filename, path) ->
  save self target format σ
  = if negb (is_str "SVG" format)
       && negb (String.eqb (lower (Path_suffix filename)) ".svg")
    then Raise ValueError
    else f ← (if path then open_wb filename else Ok target);
         e ← deref σ (svg (canvas self));
         _ ← writexml e f;
         Ok (mkWritten f path e).
Proof.
  intros Htarget. unfold save.
  destruct target as [| |s|s|l|l|p|buf|[n|] c b]; try discriminate Htarget;
    simpl in *.
  - injection Htarget as <- <-.
    assert ((if negb (negb (String.eqb s "")) then VStr s else VStr s) = VStr s)
      as -> by now destruct (String.eqb s "").
    reflexivity.
  - destruct (String.eqb p "") eqn:Hp; [discriminate|].
    injection Htarget as <- <-. reflexivity.
  - injection Htarget as <- <-. reflexivity.
  - destruct n; try discriminate Htarget; injection Htarget as <- <-; reflexivity.
  - injection Htarget as <- <-. reflexivity.
Qed.



(** C8: [close] never raises: whatever closing the file raises is dropped,
    [map] and [im] are then [None], and closing the closed handle again
    does not raise either and changes nothing. *)
Theorem close_never_raises (self : Image) :
  exists closed,
    close self = Ok closed /\
    map closed = Some VNone /\
    im closed = Some VNone /\
    close closed = Ok closed.
Proof.
  destruct self as [c sz md f cf m i].
  unfold close. simpl.
  destruct cf as [[ex|]|]; simpl.
  - eexists. repeat split; reflexivity.
  - destruct f as [v|]; simpl.
    + destruct (call_close v) eqn:Hv; simpl.
      * eexists. repeat split; try reflexivity.
      * eexists. repeat split; try reflexivity. simpl. now rewrite Hv.
    + eexists. repeat split; reflexivity.
  - destruct f as [v|]; simpl.
    + destruct (call_close v) eqn:Hv; simpl.
      * eexists. repeat split; try reflexivity.
      * eexists. repeat split; try reflexivity. simpl. now rewrite Hv.
    + eexists. repeat split; reflexivity.
Qed.

End Proofs.

(* ===================================================================== *)
(** ** The theorems on concrete inputs *)
(* ===================================================================== *)


(** C3 fails as stated: after [crop((0, 0, 50, 100))] the [height] attribute
    is the height of the new size, 100, and not its width, 50. *)
Lemma crop_height_attribute_is_height :
  exists copy σ' e',
    @crop reference square (pixel_box 0 0 50 100) [square_doc] = Ok (copy, σ') /\
    size copy = VTuple [VInt 50; VInt 100] /\
    σ' !! svg (canvas copy) = Some e' /\
    getAttribute e' "width" = [TNum (PInt 50)] /\
    getAttribute e' "height" = [TNum (PInt 100)] /\
    getAttribute e' "height" <> [TNum (PInt 50)].
Proof.
  eexists _, _, _. split; [vm_compute; reflexivity|].
  split; [reflexivity|]. split; [reflexivity|].
  split; [reflexivity|]. split; [reflexivity|].
  vm_compute. discriminate.
Qed.

Lemma crop_width_height_attributes_witness :
  exists w h e',
    size cropped = VTuple [VNum w; VNum h] /\
    [square_doc; square_doc; cropped_doc] !! svg (canvas cropped) = Some e' /\
    getAttribute e' "width" = [TNum w] /\
    getAttribute e' "height" = [TNum h].
Proof.
  refine (@crop_width_height_attributes reference square (pixel_box 0 0 50 100)
            [square_doc] [square_doc; square_doc; cropped_doc] cropped _ _).
  - vm_compute. reflexivity.
  - reflexivity.
Defined.

(** C4 fails as stated: a handle of size (100, 100), made by the
    constructor, cropped to the box (10, 0, 0, 10) gives a handle of size
    (-10, 10). *)
Lemma crop_size_not_positive :
  @Image_init reference (VTuple [VInt 100; VInt 100]) [] = Ok (square, [square_doc]) /\
  two_positive (size square) = true /\
  exists copy σ',
    @crop reference square (pixel_box 10 0 0 10) [square_doc] = Ok (copy, σ') /\
    size copy = VTuple [VInt (-10); VInt 10] /\
    two_positive (size copy) = false.
Proof.
  split; [reflexivity|]. split; [reflexivity|].
  eexists _, _. split; [vm_compute; reflexivity|].
  split; reflexivity.
Qed.

Lemma produced_size_numeric_witness :
  @produced reference (handle (PInt (-10)) (PInt 10)) /\
  two_numeric (VTuple [VInt (-10); VInt 10]).
Proof.
  assert (Hp : @produced reference (handle (PInt (-10)) (PInt 10))).
  { apply (@by_construct reference (VTuple [VInt (-10); VInt 10]) []
             (handle (PInt (-10)) (PInt 10))
             [canvas_doc [TNum (PInt 0); TNum (PInt 0); TNum (PInt (-10)); TNum (PInt 10)]
                         (PInt (-10)) (PInt 10)]).
    reflexivity. }
  split; [exact Hp|].
  exact (@produced_size_numeric reference _ Hp).
Defined.

Lemma load_rejects_witness :
  @load reference (VStr "/srv/logo.svg") (VTuple [VInt 1; VInt 2]) [] = Raise TypeError /\
  @load reference (VStr "/srv/logo.svg") (VStr "w") [] = Raise ValueError /\
  @load reference (VStringIO "<svg/>") (VStr "r") [] = Raise ValueError /\
  @load reference (VBytes "/srv/logo.svg") (VStr "r") [] = Raise RuntimeError.
Proof.
  split; [|split; [|split]].
  - apply (proj1 (@load_rejects reference _ _ _) [VInt 1; VInt 2]);
      [reflexivity | discriminate].
  - apply (proj1 (proj2 (@load_rejects reference _ _ _))); discriminate.
  - apply (proj1 (proj2 (proj2 (@load_rejects reference _ _ _)))); [reflexivity|].
    now exists "<svg/>".
  - apply (proj2 (proj2 (proj2 (@load_rejects reference _ _ _)))); [reflexivity|..];
      discriminate.
Defined.

Lemma load_path_witness :
  @load reference (VPath "/srv/broken.svg") (VStr "r") [] = Ok (None, []) /\
  (@load reference (VStr "/srv/logo.svg") (VStr "r") []
     = Ok (Some (handle (PFloat 120) (PFloat 80)),
           [mkElement (attributes (canvas_doc
                         [TNum (PInt 0); TNum (PInt 0); TNum (PFloat 120); TNum (PFloat 80)]
                         (PFloat 120) (PFloat 80)))
                      ["rect"; "circle"]]) /\
   size (handle (PFloat 120) (PFloat 80)) = VTuple [VFloat 120; VFloat 80]).
Proof.
  split.
  - apply (proj1 (@load_path reference (VPath "/srv/broken.svg") "/srv/broken.svg" []
                      (or_intror (ex_intro _ "/srv/broken.svg" (conj eq_refl eq_refl))))).
    reflexivity.
  - apply (proj2 (@load_path reference (VStr "/srv/logo.svg") "/srv/logo.svg" []
                      (or_introl eq_refl))
             (Drawing.mk (VFloat 120) (VFloat 80) ["rect"; "circle"])
             (handle (PFloat 120) (PFloat 80))
             [canvas_doc
                [TNum (PInt 0); TNum (PInt 0); TNum (PFloat 120); TNum (PFloat 80)]
                (PFloat 120) (PFloat 80)]);
      reflexivity.
Defined.



Lemma resize_crop_independent_witness :
  (exists copy σ',
     @resize reference square (VTuple [VInt 30; VInt 40]) [square_doc] = Ok (copy, σ') /\
     size copy = VTuple [VInt 30; VInt 40] /\
     svg (canvas copy) <> svg (canvas square) /\
     σ' !! svg (canvas copy) = Some square_doc /\
     forall e', <[svg (canvas copy) := e']> σ' !! svg (canvas square) = Some square_doc) /\
  (svg (canvas cropped) <> svg (canvas square) /\
   [square_doc; square_doc; cropped_doc] !! svg (canvas square) = Some square_doc /\
   forall e', <[svg (canvas cropped) := e']> [square_doc; square_doc; cropped_doc]
                !! svg (canvas square) = Some square_doc).
Proof.
  destruct (@resize_crop_independent reference square [square_doc] square_doc eq_refl)
    as [Hresize Hcrop].
  split.
  - apply (Hresize (PInt 30) (PInt 40)
             (canvas_doc [TNum (PInt 0); TNum (PInt 0); TNum (PInt 30); TNum (PInt 40)]
                         (PInt 30) (PInt 40))).
    reflexivity.
  - apply (Hcrop (pixel_box 0 0 50 100) cropped [square_doc; square_doc; cropped_doc]).
    vm_compute. reflexivity.
Defined.

(** C10 fails as stated: [crop((0, 0, 10, 100))] of the square gives a
    handle whose bounding box is (45, 0, 10, 100).  Its height is 100, and
    the box (0, 0, 0, 10) has [box[3] != box[1]]; but the requested ratio is
    0 and the current ratio, -0.35, does not exceed it, so [crop] divides by
    the requested ratio. *)
Lemma crop_zero_ratio_divides_by_zero :
  @crop reference square (pixel_box 0 0 10 100) [square_doc]
    = Ok (narrow, [square_doc; square_doc; narrow_doc]) /\
  getbbox narrow [square_doc; square_doc; narrow_doc] = Ok [45; 0; 10; 100]%float /\
  PrimFloat.eqb (PrimFloat.sub 100 0) 0 = false /\
  (10 <> 0)%Z /\
  @crop reference narrow (pixel_box 0 0 0 10) [square_doc; square_doc; narrow_doc]
    = Raise ZeroDivisionError.
Proof. repeat split; try reflexivity. discriminate. Qed.

Lemma crop_division_witness :
  @crop reference square (pixel_box 0 0 50 100) [square_doc]
    <> Raise ZeroDivisionError /\
  @crop reference square (pixel_box 0 7 50 7) [square_doc] = Raise ZeroDivisionError.
Proof.
  split.
  - refine (proj1 (@crop_division reference square [square_doc] _ _ square_doc
                     0 0 100 100 [] 0 0 50 100 _ _ _) _ _ _);
      try reflexivity.
    + discriminate.
    + intros requested Hreq. vm_compute in Hreq. injection Hreq as <-.
      left. reflexivity.
  - refine (proj1 (proj2 (@crop_division reference square [square_doc] _ _ square_doc
                              0 0 100 100 [] 0 7 50 7 _ _ _)) _);
      reflexivity.
Defined.

(* ===================================================================== *)
(** ** Further properties: construction, attributes, closing *)
(* ===================================================================== *)

Lemma valid_size_pair (sz : pyval) :
  valid_size sz = true <->
  exists a b, sz = VTuple [VNum a; VNum b] \/ sz = VList [VNum a; VNum b].
Proof.
  split.
  - unfold valid_size, item_is_number, py_getitem. intros Hv.
    destruct sz as [| | | |items|items| | |]; try discriminate Hv;
      simpl in Hv;
      destruct items as [|x [|y [|z items]]]; try discriminate Hv;
      destruct x; try discriminate Hv; destruct y; try discriminate Hv;
      eauto.
  - intros (a & b & [-> | ->]); reflexivity.
Qed.

Section More.
Context `{External}.

(** X1: [Image(size)] returns exactly when [size] is a tuple or a list of
    two numbers that the canvas constructor accepts; the handle then holds
    the size as a tuple, has mode [None] and none of the file attributes,
    and its canvas element is the one new element of the heap. *)
Theorem constructor_accepts (sz : pyval) (σ σ' : heap) (h : Image) :
  Image_init sz σ = Ok (h, σ') <->
  exists a b e,
    (sz = VTuple [VNum a; VNum b] \/ sz = VList [VNum a; VNum b]) /\
    renderSVG_SVGCanvas sz = Ok e /\
    h = mkImage (mkCanvas (length σ) None) (VTuple [VNum a; VNum b])
                VNone None None None None /\
    σ' = σ ++ [e].
Proof.
  split.
  - intros Hi.
    assert (Hv : valid_size sz = true).
    { unfold Image_init in Hi. now destruct (valid_size sz). }
    apply valid_size_pair in Hv as (a & b & Hsz).
    apply Image_init_Ok in Hi as (e & a' & b' & Hc & Hit & -> & ->).
    exists a, b, e. split; [exact Hsz|]. split; [exact Hc|].
    destruct Hsz as [-> | ->]; simpl in Hit; injection Hit as <- <-; now split.
  - intros (a & b & e & Hsz & Hc & -> & ->).
    unfold Image_init.
    destruct Hsz as [-> | ->]; simpl; simpl in Hc; now rewrite Hc.
Qed.

(** X2: on anything that is not a tuple or list of two numbers, [Image(size)]
    fails the assertion, before the canvas constructor is reached. *)
Theorem constructor_rejects (sz : pyval) (σ : heap) :
  (forall a b, sz <> VTuple [VNum a; VNum b] /\ sz <> VList [VNum a; VNum b]) ->
  Image_init sz σ = Raise AssertionError.
Proof.
  intros Hno. unfold Image_init.
  destruct (valid_size sz) eqn:Hv; [|reflexivity].
  apply valid_size_pair in Hv as (a & b & [-> | ->]);
    destruct (Hno a b) as [Ht Hl]; contradiction.
Qed.

(** The shape of every handle the module makes. *)
Lemma produced_shape (h : Image) :
  produced h ->
  exists c w hh, h = mkImage c (VTuple [VNum w; VNum hh]) VNone None None None None.
Proof.
  assert (Hinit : forall sz σ im' σ', Image_init sz σ = Ok (im', σ') ->
            exists c w hh,
              im' = mkImage c (VTuple [VNum w; VNum hh]) VNone None None None None).
  { intros sz σ im' σ' Hi.
    apply Image_init_Ok in Hi as (e & a & b & _ & _ & -> & _). eauto. }
  intros [sz σ im' σ' Hi | self sz color σ im' σ' Hn | fp' mode' σ im' σ' Hl
         | self sz σ im' σ' Hr | self box σ im' σ' Hc].
  - exact (Hinit _ _ _ _ Hi).
  - unfold new in Hn. step Hn. destruct a as [im0 σ1]. simpl in Hn.
    destruct (Hinit _ _ _ _ E) as (c & w & hh & ->).
    destruct (truthy color).
    + do 3 step Hn. injection Hn as <- <-.
      rewrite (setFillColor_Ok _ _ _ E2). unfold set_fillColor. simpl. eauto.
    + injection Hn as <- <-. eauto.
  - unfold load in Hl.
    destruct (negb (is_str "r" mode')); [destruct (percent_r mode'); discriminate|].
    destruct (match fp' with VStringIO _ => true | _ => false end); [discriminate|].
    do 2 step Hl. destruct a0 as [d|]; [|discriminate].
    step Hl. destruct a0 as [im0 σ1]. simpl in Hl. step Hl.
    injection Hl as <- <-. exact (Hinit _ _ _ _ E1).
  - unfold resize in Hr. step Hr. destruct a as [im0 σ1]. simpl in Hr.
    step Hr. destruct a as [l σ2]. simpl in Hr. injection Hr as <- <-.
    destruct (Hinit _ _ _ _ E) as (c & w & hh & ->).
    unfold set_svg. simpl. eauto.
  - destruct (truthy box) eqn:Hbox.
    + destruct (crop_box_Ok _ _ _ _ _ Hc Hbox)
        as (copy0 & σ1 & l & σ2 & w & hh & vb & σ3 & σ4 &
            Hi & _ & _ & _ & -> & _).
      destruct (Hinit _ _ _ _ Hi) as (c & w0 & h0 & ->).
      unfold set_size, set_svg. simpl. eauto.
    + destruct (crop_None_Ok _ _ _ _ _ Hc Hbox) as (copy0 & σ1 & l & Hi & _ & ->).
      destruct (Hinit _ _ _ _ Hi) as (c & w & hh & ->).
      unfold set_svg. simpl. eauto.
Qed.

(** X3: every handle made by construction, [new], [load], [resize] or
    [crop] has mode [None] and none of the attributes [fp], [_close__fp],
    [map] and [im]: a derived handle inherits nothing of the kind from its
    source. *)
Theorem produced_fresh (h : Image) :
  produced h ->
  mode h = VNone /\ fp h = None /\ _close__fp h = None /\
  map h = None /\ im h = None.
Proof.
  intros Hp. destruct (produced_shape _ Hp) as (c & w & hh & ->).
  repeat split.
Qed.

(** X4: on every handle the module makes, [width] and [height] return, and
    they are the two numbers of [size]. *)
Theorem width_height_produced (h : Image) :
  produced h ->
  exists w hh,
    size h = VTuple [VNum w; VNum hh] /\
    width h = Ok (VNum w) /\
    height h = Ok (VNum hh).
Proof.
  intros Hp. destruct (produced_shape _ Hp) as (c & w & hh & ->).
  exists w, hh. repeat split.
Qed.

(** X5: on a handle the module makes there is no file to close: [close]
    only sets [map] and [im] to [None] (the [AttributeError] of the missing
    [fp] is dropped, and [fp] stays missing), and [__exit__] only sets [fp]
    to [None], whatever [_exclusive_fp] is. *)
Theorem close_exit_produced (h : Image) :
  produced h ->
  close h = Ok (set_map_im VNone VNone h) /\
  forall exclusive, __exit__ h exclusive = Ok (set_fp VNone h).
Proof.
  intros Hp. destruct (produced_shape _ Hp) as (c & w & hh & ->).
  split; [reflexivity|]. intros exclusive. reflexivity.
Qed.

(** X6: [close] leaves the canvas, the size and the mode as they were, and
    with them everything the other methods read: the closed handle resizes,
    crops, reports its bounding box and saves exactly as before. *)
Theorem close_keeps_image (self closed : Image) :
  close self = Ok closed ->
  canvas closed = canvas self /\ size closed = size self /\ mode closed = mode self /\
  (forall sz σ, resize closed sz σ = resize self sz σ) /\
  (forall box σ, crop closed box σ = crop self box σ) /\
  (forall σ, getbbox closed σ = getbbox self σ) /\
  (forall target format σ, save closed target format σ = save self target format σ).
Proof.
  intros Hc.
  assert (Hsame : canvas closed = canvas self /\ size closed = size self
                  /\ mode closed = mode self).
  { destruct self as [c sz md f cf m i]. unfold close in Hc. simpl in Hc.
    destruct cf as [[ex|]|]; simpl in Hc;
      try (destruct f as [v|]; simpl in Hc;
           [destruct (call_close v); simpl in Hc|]);
      injection Hc as <-; repeat split. }
  destruct Hsame as (Hcanvas & Hsize & Hmode).
  repeat split; try assumption; intros;
    unfold resize, crop, getbbox, save; now rewrite ?Hcanvas, ?Hsize.
Qed.

(** X7: [close] resets [fp] to [None] when [_close__fp], if there is one,
    and [fp.close()] both return; when either raises, or there is no [fp],
    [fp] is left as it was. *)
Theorem close_releases (self closed : Image) :
  close self = Ok closed ->
  (forall f,
     _close__fp self = None \/ _close__fp self = Some None ->
     fp self = Some f -> call_close f = Ok tt ->
     fp closed = Some VNone) /\
  ((exists ex, _close__fp self = Some (Some ex)) \/
   fp self = None \/
   (exists f ex, fp self = Some f /\ call_close f = Raise ex) ->
   fp closed = fp self).
Proof.
  destruct self as [c sz md f cf m i]. unfold close. simpl. intros Hc. split.
  - intros f0 Hcf -> Hclose.
    destruct Hcf as [-> | ->]; simpl in Hc; rewrite Hclose in Hc; simpl in Hc;
      now injection Hc as <-.
  - intros [(ex & ->) | [-> | (f0 & ex & -> & Hclose)]].
    + simpl in Hc. now injection Hc as <-.
    + destruct cf as [[ex|]|]; simpl in Hc; now injection Hc as <-.
    + destruct cf as [[ex'|]|]; simpl in Hc; rewrite ?Hclose in Hc; simpl in Hc;
        now injection Hc as <-.
Qed.

(** X8: [__exit__] catches nothing.  When it returns it has only set [fp]
    to [None]; it returns whenever the handle has no [fp] or
    [_exclusive_fp] is missing or false; and when it raises, the handle is
    exclusive and the exception is the one of [_close__fp] or of the
    [close()] of a true [fp]. *)
Theorem exit_spec (self : Image) (exclusive : option pyval) :
  (forall s, __exit__ self exclusive = Ok s -> s = set_fp VNone self) /\
  (fp self = None \/ exclusive = None \/
   (exists v, exclusive = Some v /\ truthy v = false) ->
   __exit__ self exclusive = Ok (set_fp VNone self)) /\
  (forall ex, __exit__ self exclusive = Raise ex ->
     (exists v, exclusive = Some v /\ truthy v = true) /\
     (_close__fp self = Some (Some ex) \/
      exists f, fp self = Some f /\ truthy f = true /\ call_close f = Raise ex)).
Proof.
  unfold __exit__. split; [|split].
  - intros s Hx. step Hx. now injection Hx as <-.
  - intros [Hfp | [-> | (v & -> & Hv)]].
    + now rewrite Hfp.
    + now rewrite andb_false_r.
    + now rewrite Hv, andb_false_r.
  - intros ex Hx.
    destruct (fp self) as [f|] eqn:Hfp; [|discriminate Hx].
    destruct exclusive as [v|]; [|discriminate Hx].
    destruct (truthy v) eqn:Hv; [|discriminate Hx].
    split; [now exists v|]. simpl in Hx.
    destruct (_close__fp self) as [[ex'|]|]; simpl in Hx.
    + injection Hx as <-. now left.
    + right. exists f. destruct (truthy f); [|discriminate Hx].
      destruct (call_close f) as [[]|ex'] eqn:Hc; [discriminate Hx|].
      simpl in Hx. injection Hx as <-. now repeat split.
    + right. exists f. destruct (truthy f); [|discriminate Hx].
      destruct (call_close f) as [[]|ex'] eqn:Hc; [discriminate Hx|].
      simpl in Hx. injection Hx as <-. now repeat split.
Qed.

(* ===================================================================== *)
(** ** Further properties: documents, bounding boxes, cropping *)
(* ===================================================================== *)

Lemma mapR_cons {A B} (f : A -> result B) (x : A) (l : list A) :
  mapR f (x :: l) = (y ← f x; ys ← mapR f l; Ok (y :: ys)).
Proof. reflexivity. Qed.

(** Numbers written by [str.format] read back as themselves. *)
Lemma mapR_float_tokens (l : list float) :
  mapR float_of_token ((fun x => TNum (PFloat x)) <$> l) = Ok l.
Proof.
  induction l as [|x l IH]; [reflexivity|].
  rewrite fmap_cons, mapR_cons. simpl. now rewrite IH.
Qed.

(** [float()] is the only step of [getbbox] that can fail. *)
Lemma mapR_float_Raise (l : list token) (ex : exn) :
  mapR float_of_token l = Raise ex ->
  ex = ValueError /\ exists w, TWord w ∈ l.
Proof.
  induction l as [|t l IH]; [discriminate|].
  rewrite mapR_cons. destruct t as [[z|f]|w]; simpl.
  - destruct (mapR float_of_token l); [discriminate|].
    intros [= ->]. destruct (IH eq_refl) as (-> & w & Hw).
    split; [reflexivity|]. exists w. now right.
  - destruct (mapR float_of_token l); [discriminate|].
    intros [= ->]. destruct (IH eq_refl) as (-> & w & Hw).
    split; [reflexivity|]. exists w. now right.
  - intros [= <-]. split; [reflexivity|]. exists w. now left.
Qed.

Lemma cloneNode_Ok (σ σ' : heap) (l l' : loc) :
  cloneNode l σ = Ok (l', σ') ->
  exists e, σ !! l = Some e /\ l' = length σ /\ σ' = σ ++ [e].
Proof.
  unfold cloneNode, alloc. intros Hc. step Hc. injection Hc as <- <-.
  exists a. now apply deref_Ok in E.
Qed.

Lemma setAttribute_length (σ σ' : heap) (l : loc) k v :
  setAttribute l k v σ = Ok σ' -> length σ' = length σ.
Proof.
  unfold setAttribute. intros Hs. step Hs. injection Hs as <-.
  apply length_insert.
Qed.

(** [save] reads the handle only for its document. *)
Lemma save_same_document (a b : Image) (σ σ' : heap) (target format : pyval) :
  deref σ (svg (canvas a)) = deref σ' (svg (canvas b)) ->
  save a target format σ = save b target format σ'.
Proof. intros Heq. unfold save. now rewrite Heq. Qed.

(** The start of every [crop] on a well-formed handle. *)
Lemma crop_start (self : Image) (box : pyval) (σ σ1 : heap) (copy0 : Image)
    (e : Element) :
  Image_init (size self) σ = Ok (copy0, σ1) ->
  σ !! svg (canvas self) = Some e ->
  truthy box = true ->
  crop self box σ
  = (bbox ← mapR float_of_token (getAttribute e "viewBox");
     b2 ← index bbox 2; b0 ← index bbox 0;
     b3 ← index bbox 3; b1 ← index bbox 1;
     current ← float_div (PrimFloat.sub b2 b0) (PrimFloat.sub b3 b1);
     w ← span box 2 0;
     h ← span box 3 1;
     wanted ← num_truediv w h;
     bbox ← (if PrimFloat.ltb wanted current
             then shrink_width wanted bbox
             else shrink_height wanted bbox);
     w ← span box 2 0;
     h ← span box 3 1;
     viewBox ← mapR (format_field (PFloat <$> bbox)) [0; 1; 2; 3]%nat;
     σ3 ← setAttribute (S (length σ)) "viewBox" viewBox (σ1 ++ [e]);
     width ← format_field [w; h] 0;
     σ4 ← setAttribute (S (length σ)) "width" [width] σ3;
     height ← format_field [w; h] 1;
     σ5 ← setAttribute (S (length σ)) "height" [height] σ4;
     Ok (set_size (VTuple [VNum w; VNum h]) (set_svg (S (length σ)) copy0), σ5)).
Proof.
  intros Hinit He Hbox.
  destruct (clone_step self _ _ _ _ _ Hinit He) as (e0 & -> & _ & Hclone).
  assert (Hself : (σ ++ [e0; e]) !! svg (canvas self) = Some e)
    by now apply lookup_app_l_Some.
  unfold crop. rewrite Hinit. simpl. rewrite Hclone. simpl. rewrite Hbox.
  unfold getbbox. rewrite (deref_Some _ _ _ Hself). simpl.
  now rewrite <- app_assoc.
Qed.

(** X9: after a [crop] with a box, [getbbox] of the new handle returns the
    rectangle that [crop] computed: the view-box it wrote reads back
    exactly, with no rounding. *)
Theorem getbbox_after_crop (self : Image) (box : pyval) (σ σ1 : heap) (copy0 : Image)
    (e : Element) (x0 x1 x2 x3 : float) (rest : list float)
    (w h : num) (requested : float) :
  Image_init (size self) σ = Ok (copy0, σ1) ->
  σ !! svg (canvas self) = Some e ->
  mapR float_of_token (getAttribute e "viewBox") = Ok (x0 :: x1 :: x2 :: x3 :: rest) ->
  truthy box = true ->
  PrimFloat.eqb (PrimFloat.sub x3 x1) 0 = false ->
  span box 2 0 = Ok w ->
  span box 3 1 = Ok h ->
  num_truediv w h = Ok requested ->
  (PrimFloat.ltb requested
     (PrimFloat.div (PrimFloat.sub x2 x0) (PrimFloat.sub x3 x1)) = true
   \/ PrimFloat.eqb requested 0 = false) ->
  exists copy σ',
    crop self box σ = Ok (copy, σ') /\
    getbbox copy σ' = Ok (spec_viewbox x0 x1 x2 x3 requested).
Proof.
  intros Hinit He Hbbox Hbox Hcur Hw Hh Hreq Hbranch.
  destruct (crop_box_run _ _ _ _ _ _ _ _ _ _ _ _ _ _
              Hinit He Hbbox Hbox Hcur Hw Hh Hreq Hbranch) as (σ' & Hcrop & Hl).
  eexists _, σ'. split; [exact Hcrop|].
  unfold getbbox. simpl. rewrite (deref_Some _ _ _ Hl). simpl.
  unfold getAttribute, with_attribute. simpl.
  rewrite !lookup_insert_ne by discriminate. rewrite lookup_insert_eq. simpl.
  apply mapR_float_tokens.
Qed.

(** X10: [resize] changes the size of the handle and nothing of the
    document: the copy's document has the content of the source's (its
    [width], [height] and view-box included), the copy reports the same
    bounding box, and it saves exactly what the source saves. *)
Theorem resize_same_document (self copy : Image) (sz : pyval) (σ σ' : heap)
    (e : Element) :
  resize self sz σ = Ok (copy, σ') ->
  σ !! svg (canvas self) = Some e ->
  σ' !! svg (canvas copy) = Some e /\
  getbbox copy σ' = getbbox self σ /\
  forall target format,
    save copy target format σ' = save self target format σ.
Proof.
  intros Hr He.
  unfold resize in Hr. step Hr. destruct a as [copy0 σ1]. simpl in Hr.
  step Hr. destruct a as [l σ2]. simpl in Hr. injection Hr as <- <-.
  destruct (clone_step self _ _ _ _ _ E He) as (e0 & -> & _ & Hclone).
  rewrite Hclone in E0. injection E0 as <- <-.
  assert (Hcopy : (σ ++ [e0; e]) !! S (length σ) = Some e) by apply lookup_clone.
  split; [exact Hcopy|].
  assert (Hd : deref (σ ++ [e0; e]) (svg (canvas (set_svg (S (length σ)) copy0)))
               = deref σ (svg (canvas self))).
  { simpl. now rewrite (deref_Some _ _ _ Hcopy), (deref_Some _ _ _ He). }
  split.
  - unfold getbbox. now rewrite Hd.
  - intros target format. now apply save_same_document.
Qed.

(** X11: [crop] without a box ([None], an empty tuple, or anything else
    that is false) is [resize] to the handle's own size. *)
Theorem crop_no_box_is_resize (self : Image) (box : pyval) (σ : heap) :
  truthy box = false ->
  crop self box σ = resize self (size self) σ.
Proof.
  intros Hbox. unfold crop, resize.
  destruct (Image_init (size self) σ) as [[copy0 σ1]|ex]; [|reflexivity].
  simpl. destruct (cloneNode (svg (canvas self)) σ1) as [[l σ2]|ex]; [|reflexivity].
  simpl. now rewrite Hbox.
Qed.

(** X12: [resize] and [crop] only add to the heap: the new canvas's own
    element and the clone, which is the copy's document.  No document that
    existed before is changed, whatever the box. *)
Theorem derived_heap_extends (self copy : Image) (arg : pyval) (σ σ' : heap) :
  resize self arg σ = Ok (copy, σ') \/ crop self arg σ = Ok (copy, σ') ->
  length σ' = (length σ + 2)%nat /\
  svg (canvas copy) = S (length σ) /\
  forall l, (l < length σ)%nat -> σ' !! l = σ !! l.
Proof.
  assert (Hclone : forall sz copy0 σ1 l σ2,
            Image_init sz σ = Ok (copy0, σ1) ->
            cloneNode (svg (canvas self)) σ1 = Ok (l, σ2) ->
            l = S (length σ) /\ length σ2 = (length σ + 2)%nat /\
            forall l', (l' < length σ)%nat -> σ2 !! l' = σ !! l').
  { intros sz copy0 σ1 l σ2 Hi Hc.
    apply Image_init_Ok in Hi as (e0 & a & b & _ & _ & _ & ->).
    apply cloneNode_Ok in Hc as (e & _ & -> & ->).
    rewrite !length_app. simpl. split; [lia|]. split; [lia|].
    intros l' Hl'. rewrite <- app_assoc. now apply lookup_app_l. }
  intros [Hr | Hc].
  - unfold resize in Hr. step Hr. destruct a as [copy0 σ1]. simpl in Hr.
    step Hr. destruct a as [l σ2]. simpl in Hr. injection Hr as <- <-.
    destruct (Hclone _ _ _ _ _ E E0) as (-> & Hlen & Hframe).
    now repeat split.
  - destruct (truthy arg) eqn:Hbox.
    + destruct (crop_box_Ok _ _ _ _ _ Hc Hbox)
        as (copy0 & σ1 & l & σ2 & w & h & vb & σ3 & σ4 &
            Hi & Hcl & _ & _ & -> & Hs3 & Hs4 & Hs5).
      destruct (Hclone _ _ _ _ _ Hi Hcl) as (-> & Hlen & Hframe).
      split; [|split; [reflexivity|]].
      * rewrite (setAttribute_length _ _ _ _ _ Hs5),
                (setAttribute_length _ _ _ _ _ Hs4),
                (setAttribute_length _ _ _ _ _ Hs3).
        exact Hlen.
      * intros l' Hl'.
        rewrite (setAttribute_frame _ _ _ _ _ _ Hs5) by lia.
        rewrite (setAttribute_frame _ _ _ _ _ _ Hs4) by lia.
        rewrite (setAttribute_frame _ _ _ _ _ _ Hs3) by lia.
        now apply Hframe.
    + destruct (crop_None_Ok _ _ _ _ _ Hc Hbox) as (copy0 & σ1 & l & Hi & Hcl & ->).
      destruct (Hclone _ _ _ _ _ Hi Hcl) as (-> & Hlen & Hframe).
      now repeat split.
Qed.

Lemma int_truediv_Raise (x y : Z) (ex : exn) :
  num_truediv (PInt x) (PInt y) = Raise ex ->
  ex = ZeroDivisionError \/ ex = OverflowError.
Proof.
  unfold num_truediv. destruct (Z.eqb y 0).
  - intros [= <-]. now left.
  - destruct (SFdiv prec emax (Z2SF x) (Z2SF y)); intros [=]. subst. now right.
Qed.

(** X13: on a handle whose view-box holds four numbers, [crop] with a box of
    four integers below [10^4299] in absolute value (so that its width and
    height print under any limit on integer conversion) either returns or
    raises [ZeroDivisionError] or [OverflowError], a quotient of integers
    too large for a float: it raises nothing else. *)
Theorem crop_pixel_box_outcomes (self : Image) (σ σ1 : heap) (copy0 : Image)
    (e : Element) (x0 x1 x2 x3 : float) (rest : list float) (b0 b1 b2 b3 : Z) :
  Image_init (size self) σ = Ok (copy0, σ1) ->
  σ !! svg (canvas self) = Some e ->
  mapR float_of_token (getAttribute e "viewBox") = Ok (x0 :: x1 :: x2 :: x3 :: rest) ->
  Z.abs b0 < 10 ^ 4299 -> Z.abs b1 < 10 ^ 4299 ->
  Z.abs b2 < 10 ^ 4299 -> Z.abs b3 < 10 ^ 4299 ->
  (exists copy σ', crop self (pixel_box b0 b1 b2 b3) σ = Ok (copy, σ')) \/
  crop self (pixel_box b0 b1 b2 b3) σ = Raise ZeroDivisionError \/
  crop self (pixel_box b0 b1 b2 b3) σ = Raise OverflowError.
Proof.
  intros Hinit He Hbbox _ _ _ _.
  destruct (span_pixel_box b0 b1 b2 b3) as [Hw Hh].
  pose proof (crop_start self (pixel_box b0 b1 b2 b3) _ _ _ _ Hinit He eq_refl)
    as Hstart.
  rewrite Hbbox, !Hw, !Hh in Hstart. simpl in Hstart.
  destruct (PrimFloat.eqb (PrimFloat.sub x3 x1) 0) eqn:Hcur.
  { right. left. rewrite Hstart. now rewrite (float_div_zero _ _ Hcur). }
  destruct (num_truediv (PInt (b2 - b0)) (PInt (b3 - b1))) as [requested|ex] eqn:Hreq.
  - destruct (PrimFloat.ltb requested
                (PrimFloat.div (PrimFloat.sub x2 x0) (PrimFloat.sub x3 x1))) eqn:Hlt.
    + left.
      destruct (crop_box_run self (pixel_box b0 b1 b2 b3) _ _ _ _ _ _ _ _ _ _ _ _
                  Hinit He Hbbox eq_refl Hcur Hw Hh Hreq (or_introl Hlt))
        as (σ' & Hcrop & _).
      eauto.
    + destruct (PrimFloat.eqb requested 0) eqn:Hz.
      * right. left. rewrite Hstart. rewrite (float_div_Ok _ _ Hcur). simpl.
        rewrite Hlt. unfold shrink_height. simpl.
        now rewrite (float_div_zero _ _ Hz).
      * left.
        destruct (crop_box_run self (pixel_box b0 b1 b2 b3) _ _ _ _ _ _ _ _ _ _ _ _
                    Hinit He Hbbox eq_refl Hcur Hw Hh Hreq (or_intror Hz))
          as (σ' & Hcrop & _).
        eauto.
  - right. rewrite Hstart. rewrite (float_div_Ok _ _ Hcur). simpl.
    destruct (int_truediv_Raise _ _ _ Hreq) as [-> | ->]; auto.
Qed.

(** X14: [getbbox] does not fail on a document without a view-box: it
    returns the empty tuple.  A [crop] with a box then raises [IndexError],
    as it does whenever the view-box holds fewer than four numbers,
    whatever the box. *)
Theorem crop_needs_view_box (self : Image) (σ σ1 : heap) (copy0 : Image)
    (e : Element) :
  Image_init (size self) σ = Ok (copy0, σ1) ->
  σ !! svg (canvas self) = Some e ->
  (attributes e !! "viewBox" = None -> getbbox self σ = Ok []) /\
  (forall bbox box,
     getbbox self σ = Ok bbox ->
     (length bbox < 4)%nat ->
     truthy box = true ->
     crop self box σ = Raise IndexError).
Proof.
  intros Hinit He. split.
  - intros Hno. unfold getbbox. rewrite (deref_Some _ _ _ He). simpl.
    unfold getAttribute. now rewrite Hno.
  - intros bbox box Hg Hlen Hbox.
    unfold getbbox in Hg. rewrite (deref_Some _ _ _ He) in Hg. simpl in Hg.
    rewrite (crop_start self box _ _ _ _ Hinit He Hbox), Hg. simpl.
    destruct bbox as [|a [|b [|c [|d bbox]]]]; try reflexivity.
    simpl in Hlen. lia.
Qed.

(** X15: [getbbox] fails only with [ValueError], and only when a piece of
    the view-box is not a number; a [crop] with a box fails with it. *)
Theorem getbbox_failure (self : Image) (σ σ1 : heap) (copy0 : Image) (e : Element)
    (ex : exn) :
  Image_init (size self) σ = Ok (copy0, σ1) ->
  σ !! svg (canvas self) = Some e ->
  getbbox self σ = Raise ex ->
  ex = ValueError /\
  (exists w, TWord w ∈ getAttribute e "viewBox") /\
  forall box, truthy box = true -> crop self box σ = Raise ValueError.
Proof.
  intros Hinit He Hg.
  unfold getbbox in Hg. rewrite (deref_Some _ _ _ He) in Hg. simpl in Hg.
  destruct (mapR_float_Raise _ _ Hg) as (-> & Hw).
  split; [reflexivity|]. split; [exact Hw|].
  intros box Hbox.
  now rewrite (crop_start self box _ _ _ _ Hinit He Hbox), Hg.
Qed.

(** X16: the shape of the box.  On a handle whose bounding box has four
    numbers and a height that is not zero, [crop] raises [IndexError] on a
    tuple or list of one or two items, and [TypeError] on a box whose third
    or first item is not a number. *)
Theorem crop_box_shape (self : Image) (σ σ1 : heap) (copy0 : Image) (e : Element)
    (x0 x1 x2 x3 : float) (rest : list float) (box : pyval) (items : list pyval) :
  Image_init (size self) σ = Ok (copy0, σ1) ->
  σ !! svg (canvas self) = Some e ->
  mapR float_of_token (getAttribute e "viewBox") = Ok (x0 :: x1 :: x2 :: x3 :: rest) ->
  PrimFloat.eqb (PrimFloat.sub x3 x1) 0 = false ->
  box = VTuple items \/ box = VList items ->
  ((1 <= length items <= 2)%nat -> crop self box σ = Raise IndexError) /\
  (forall a b,
     items !! 2%nat = Some a -> items !! 0%nat = Some b ->
     is_number a = false \/ is_number b = false ->
     crop self box σ = Raise TypeError).
Proof.
  intros Hinit He Hbbox Hcur Hshape.
  assert (Hstart : forall ex, truthy box = true -> span box 2 0 = Raise ex ->
            crop self box σ = Raise ex).
  { intros ex Hbox Hspan.
    rewrite (crop_start self box _ _ _ _ Hinit He Hbox), Hbbox. simpl.
    rewrite (float_div_Ok _ _ Hcur). simpl. now rewrite Hspan. }
  split.
  - intros Hlen. apply Hstart.
    + destruct Hshape as [-> | ->]; destruct items; simpl in *; try reflexivity; lia.
    + destruct Hshape as [-> | ->];
        destruct items as [|a [|b [|c items]]]; simpl in *; try reflexivity; lia.
  - intros a b Ha Hb Hnum. apply Hstart.
    + destruct Hshape as [-> | ->]; destruct items; try discriminate; reflexivity.
    + unfold span, py_getitem.
      destruct Hshape as [-> | ->]; simpl; rewrite Ha; simpl; rewrite Hb; simpl;
        destruct a, b; try reflexivity; destruct Hnum; discriminate.
Qed.

(* ===================================================================== *)
(** ** Further properties: saving, [new], [load] *)
(* ===================================================================== *)

(** X17: a file name given as a byte string, as the path itself or as the
    name of a file object, makes [save] raise [TypeError], whatever the
    format: [Path] takes no bytes. *)
Theorem save_bytes_name (self : Image) (s : string) (c : option exn) (b : bool)
    (format : pyval) (σ : heap) :
  save self (VBytes s) format σ = Raise TypeError /\
  save self (VFile (Some (VBytes s)) c b) format σ = Raise TypeError.
Proof.
  split; unfold save; simpl.
  - now destruct (String.eqb s "").
  - reflexivity.
Qed.

(** X18: once the format is accepted, [save] catches nothing: what opening
    the path raises, and what writing the document raises, is what [save]
    raises. *)
Theorem save_propagates_io (self : Image) (target format : pyval) (σ : heap)
    (e : Element) (filename : string) (path : bool) (ex : exn) :
  σ !! svg (canvas self) = Some e ->
  text_target target = Some (filename, path) ->
  format = VStr "SVG" \/ lower (Path_suffix filename) = ".svg" ->
  (path = true -> open_wb filename = Raise ex ->
   save self target format σ = Raise ex) /\
  (forall f,
     (if path then open_wb filename else Ok target) = Ok f ->
     writexml e f = Raise ex ->
     save self target format σ = Raise ex).
Proof.
  intros He Htarget Hfmt.
  rewrite (save_target_run _ _ _ _ _ _ Htarget).
  assert (negb (is_str "SVG" format)
          && negb (String.eqb (lower (Path_suffix filename)) ".svg") = false) as ->.
  { destruct Hfmt as [-> | ->]; [reflexivity|].
    rewrite String.eqb_refl. apply andb_false_r. }
  split.
  - intros -> Hopen. now rewrite Hopen.
  - intros f Hopen Hwrite. rewrite Hopen. simpl.
    rewrite (deref_Some _ _ _ He). simpl. now rewrite Hwrite.
Qed.

(** X19: called with three positional arguments, or with the color by
    keyword, [new] ignores the first one and builds the color from the
    components of the third.  When the canvas takes the color, the result
    is a handle of the size given second with that fill color; when the
    canvas raises, [new] raises the same. *)
Theorem new_three_positions (first sz : pyval) (components : list pyval)
    (σ σ1 : heap) (h : Image) :
  Image_init sz σ = Ok (h, σ1) ->
  components <> [] ->
  (length components <= 4)%nat ->
  (setFillColor_raises (mkColor components) = None ->
   call_new [first; sz; VTuple components] [] σ
     = Ok (set_fillColor (mkColor components) h, σ1) /\
   call_new [first; sz] [("color", VTuple components)] σ
     = Ok (set_fillColor (mkColor components) h, σ1) /\
   size (set_fillColor (mkColor components) h) = size h /\
   fillColor (canvas (set_fillColor (mkColor components) h))
     = Some (mkColor components)) /\
  (forall ex, setFillColor_raises (mkColor components) = Some ex ->
   call_new [first; sz; VTuple components] [] σ = Raise ex /\
   call_new [first; sz] [("color", VTuple components)] σ = Raise ex).
Proof.
  intros Hi Hne Hlen. split.
  - intros Hfill.
    destruct (new_body first sz components σ σ1 h Hi Hne Hlen Hfill) as [Hnew _].
    split; [exact Hnew|]. split; [exact Hnew|]. split; reflexivity.
  - intros ex Hfill.
    assert (Hnew : new first sz (VTuple components) σ = Raise ex).
    { unfold new. rewrite Hi. simpl.
      destruct components as [|c cs]; [contradiction|].
      unfold Color_of.
      replace (Nat.leb (length (c :: cs)) 4) with true
        by (symmetry; apply Nat.leb_le; exact Hlen).
      simpl. unfold setFillColor. now rewrite Hfill. }
    split; exact Hnew.
Qed.

(** X20: the color of [new].  A color that is false ([None], [0], an empty
    tuple) is not applied: the handle is the one [Image(size)] makes, with
    no fill color.  A number that is not zero cannot be unpacked and raises
    [TypeError]. *)
Theorem new_color_edges (first sz : pyval) (σ σ1 : heap) (h : Image) :
  Image_init sz σ = Ok (h, σ1) ->
  fillColor (canvas h) = None /\
  (forall color, truthy color = false -> new first sz color σ = Ok (h, σ1)) /\
  (forall n, num_is_zero n = false ->
     new first sz (VNum n) σ = Raise TypeError).
Proof.
  intros Hi. split.
  { apply Image_init_Ok in Hi as (e & a & b & _ & _ & -> & _). reflexivity. }
  split.
  - intros color Hc. unfold new. rewrite Hi. simpl. now rewrite Hc.
  - intros n Hn. unfold new. rewrite Hi. simpl. now rewrite Hn.
Qed.

(** X21: what a [load] that returned went through: the mode was ['r'], the
    source a [str] or a [Path] that resolved, and the parser ran on the
    file name.  It returned [None] only because the parser did, the heap
    untouched; a handle only for a drawing whose width and height are
    numbers, which are the handle's size, on a canvas that is new. *)
Theorem load_returns (source mode : pyval) (σ σ' : heap) (r : option Image) :
  load source mode σ = Ok (r, σ') ->
  mode = VStr "r" /\
  exists filename,
    (source = VStr filename \/
     exists p, source = VPath p /\ Path_resolve p = Ok filename) /\
    match r with
    | None => svg2rlg filename = Ok None /\ σ' = σ
    | Some h =>
        exists d w hh,
          svg2rlg filename = Ok (Some d) /\
          Drawing.width d = VNum w /\ Drawing.height d = VNum hh /\
          size h = VTuple [VNum w; VNum hh] /\
          svg (canvas h) = length σ
    end.
Proof.
  unfold load. intros Hl.
  destruct (is_str "r" mode) eqn:Hm;
    [|simpl in Hl; destruct (percent_r mode); discriminate Hl].
  simpl in Hl.
  apply is_str_true in Hm. split; [exact Hm|].
  destruct (match source with VStringIO _ => true | _ => false end) eqn:Hio;
    [discriminate Hl|].
  step Hl. exists a. split.
  { destruct source; try discriminate E.
    - injection E as <-. now left.
    - right. now exists p. }
  step Hl. destruct a0 as [d|].
  - step Hl. destruct a0 as [h σ1]. simpl in Hl. step Hl. injection Hl as <- <-.
    apply Image_init_Ok in E1 as (e & w & hh & _ & Hit & -> & _).
    simpl in Hit. injection Hit as Hw Hh.
    exists d, w, hh. now repeat split.
  - injection Hl as <- <-. now split.
Qed.

(** X22: a [resize] before a [crop] changes nothing of what the [crop]
    produces: the handle cropped after resizing has the size and the
    document (view-box, [width], [height] and all the rest) of the handle
    cropped directly, since the rectangle is computed from the view-box that
    [resize] copies and the size from the box. *)
Theorem crop_after_resize (self resized_self : Image) (sz box : pyval)
    (σ σ1 σr σr1 : heap) (copy0 copy0' : Image)
    (e : Element) (x0 x1 x2 x3 : float) (rest : list float)
    (w h : num) (requested : float) :
  resize self sz σ = Ok (resized_self, σr) ->
  Image_init (size self) σ = Ok (copy0, σ1) ->
  Image_init (size resized_self) σr = Ok (copy0', σr1) ->
  σ !! svg (canvas self) = Some e ->
  mapR float_of_token (getAttribute e "viewBox") = Ok (x0 :: x1 :: x2 :: x3 :: rest) ->
  truthy box = true ->
  PrimFloat.eqb (PrimFloat.sub x3 x1) 0 = false ->
  span box 2 0 = Ok w ->
  span box 3 1 = Ok h ->
  num_truediv w h = Ok requested ->
  (PrimFloat.ltb requested
     (PrimFloat.div (PrimFloat.sub x2 x0) (PrimFloat.sub x3 x1)) = true
   \/ PrimFloat.eqb requested 0 = false) ->
  exists direct σd after σa e',
    crop self box σ = Ok (direct, σd) /\
    crop resized_self box σr = Ok (after, σa) /\
    size after = size direct /\
    σd !! svg (canvas direct) = Some e' /\
    σa !! svg (canvas after) = Some e'.
Proof.
  intros Hr Hinit Hinit' He Hbbox Hbox Hcur Hw Hh Hreq Hbranch.
  assert (He' : σr !! svg (canvas resized_self) = Some e).
  { unfold resize in Hr. step Hr. destruct a as [c0 σ0]. simpl in Hr.
    step Hr. destruct a as [l σ2]. simpl in Hr. injection Hr as <- <-.
    destruct (clone_step self _ _ _ _ _ E He) as (e0 & -> & _ & Hclone).
    rewrite Hclone in E0. injection E0 as <- <-. apply lookup_clone. }
  destruct (crop_box_run _ _ _ _ _ _ _ _ _ _ _ _ _ _
              Hinit He Hbbox Hbox Hcur Hw Hh Hreq Hbranch) as (σd & Hd & Hld).
  destruct (crop_box_run _ _ _ _ _ _ _ _ _ _ _ _ _ _
              Hinit' He' Hbbox Hbox Hcur Hw Hh Hreq Hbranch) as (σa & Ha & Hla).
  eexists _, σd, _, σa, _.
  split; [exact Hd|]. split; [exact Ha|]. split; [reflexivity|].
  split; [exact Hld | exact Hla].
Qed.

(** X23: with libraries that do as Python's do (a file opened ["w+b"] is a
    binary file, and the serializer, which writes [str], is refused by a
    binary file with [TypeError]), [save] on a path never returns: once the
    format check passes and the file is opened, it raises [TypeError]. *)
Theorem save_path_never_returns (self : Image) (target format : pyval) (σ : heap)
    (e : Element) (filename : string) :
  σ !! svg (canvas self) = Some e ->
  text_target target = Some (filename, true) ->
  (forall f, open_wb filename = Ok f -> exists n c, f = VFile n c true) ->
  (forall n c, writexml e (VFile n c true) = Raise TypeError) ->
  (forall w, save self target format σ <> Ok w) /\
  (format = VStr "SVG" \/ lower (Path_suffix filename) = ".svg" ->
   forall f, open_wb filename = Ok f ->
             save self target format σ = Raise TypeError).
Proof.
  intros He Htarget Hbinary Hrefused.
  rewrite (save_target_run _ _ _ _ _ _ Htarget), (deref_Some _ _ _ He).
  assert (Hrun : forall f, open_wb filename = Ok f ->
            (f' ← open_wb filename; _ ← writexml e f'; Ok (mkWritten f' true e))
            = Raise TypeError).
  { intros f Hopen. rewrite Hopen. simpl.
    destruct (Hbinary f Hopen) as (n & c & ->). now rewrite Hrefused. }
  split.
  - intros w. destruct (_ && _); [discriminate|].
    destruct (open_wb filename) as [f|ex] eqn:Hopen; [|discriminate].
    specialize (Hrun f eq_refl). simpl in *. rewrite Hrun. discriminate.
  - intros Hfmt f Hopen.
    assert (negb (is_str "SVG" format)
            && negb (String.eqb (lower (Path_suffix filename)) ".svg") = false) as ->.
    { destruct Hfmt as [-> | ->]; [reflexivity|].
      rewrite String.eqb_refl. apply andb_false_r. }
    now apply (Hrun f).
Qed.

End More.

(* ===================================================================== *)
(** ** The further properties on concrete inputs *)
(* ===================================================================== *)

Lemma produced_cropped : @produced reference cropped.
Proof.
  apply (@by_crop reference square (pixel_box 0 0 50 100) [square_doc]
           cropped [square_doc; square_doc; cropped_doc]).
  vm_compute. reflexivity.
Defined.

Lemma constructor_accepts_witness :
  @Image_init reference (VList [VInt 100; VInt 100]) [] = Ok (square, [square_doc]).
Proof.
  apply (proj2 (@constructor_accepts reference (VList [VInt 100; VInt 100]) []
                  [square_doc] square)).
  exists (PInt 100), (PInt 100), square_doc.
  split; [now right|]. repeat split.
Defined.

Lemma constructor_rejects_witness :
  @Image_init reference (VTuple [VInt 1; VInt 2; VInt 3]) [] = Raise AssertionError /\
  @Image_init reference (VTuple [VInt 1; VStr "2"]) [] = Raise AssertionError.
Proof.
  split; apply (@constructor_rejects reference); intros a b; split; discriminate.
Defined.

Lemma produced_fresh_witness :
  mode cropped = VNone /\ fp cropped = None /\ _close__fp cropped = None /\
  map cropped = None /\ im cropped = None.
Proof. exact (@produced_fresh reference cropped produced_cropped). Defined.

Lemma width_height_produced_witness :
  exists w hh,
    size cropped = VTuple [VNum w; VNum hh] /\
    width cropped = Ok (VNum w) /\
    height cropped = Ok (VNum hh).
Proof. exact (@width_height_produced reference cropped produced_cropped). Defined.

Lemma close_exit_produced_witness :
  close cropped = Ok (set_map_im VNone VNone cropped) /\
  forall exclusive, __exit__ cropped exclusive = Ok (set_fp VNone cropped).
Proof. exact (@close_exit_produced reference cropped produced_cropped). Defined.

Lemma close_keeps_image_witness :
  canvas (set_map_im VNone VNone busy) = canvas busy /\
  size (set_map_im VNone VNone busy) = size busy /\
  mode (set_map_im VNone VNone busy) = mode busy /\
  (forall sz σ, @resize reference (set_map_im VNone VNone busy) sz σ
                = @resize reference busy sz σ) /\
  (forall box σ, @crop reference (set_map_im VNone VNone busy) box σ
                 = @crop reference busy box σ) /\
  (forall σ, getbbox (set_map_im VNone VNone busy) σ = getbbox busy σ) /\
  (forall target format σ,
     @save reference (set_map_im VNone VNone busy) target format σ
     = @save reference busy target format σ).
Proof.
  exact (@close_keeps_image reference busy (set_map_im VNone VNone busy) eq_refl).
Defined.

Lemma close_releases_witness :
  fp (set_map_im VNone VNone (set_fp VNone held)) = Some VNone /\
  fp (set_map_im VNone VNone busy) = fp busy.
Proof.
  split.
  - apply (proj1 (close_releases held (set_map_im VNone VNone (set_fp VNone held))
                    eq_refl) (VFile (Some (VStr "a.svg")) None true));
      [now left | reflexivity | reflexivity].
  - apply (proj2 (close_releases busy (set_map_im VNone VNone busy) eq_refl)).
    right. right.
    now exists (VFile (Some (VStr "a.svg")) (Some OSError) true), OSError.
Defined.

Lemma exit_spec_witness :
  __exit__ busy None = Ok (set_fp VNone busy) /\
  ((exists v, Some (VInt 1) = Some v /\ truthy v = true) /\
   (_close__fp busy = Some (Some OSError) \/
    exists f, fp busy = Some f /\ truthy f = true /\ call_close f = Raise OSError)).
Proof.
  split.
  - apply (proj1 (proj2 (exit_spec busy None))). right. now left.
  - exact (proj2 (proj2 (exit_spec busy (Some (VInt 1)))) OSError eq_refl).
Defined.

Lemma getbbox_after_crop_witness :
  exists copy σ',
    @crop reference square (pixel_box 0 0 50 100) [square_doc] = Ok (copy, σ') /\
    getbbox copy σ' = Ok [25; 0; 50; 100]%float.
Proof.
  refine (@getbbox_after_crop reference square _ [square_doc] _ _ square_doc
            0 0 100 100 [] (PInt 50) (PInt 100) 0.5 _ _ _ _ _ _ _ _ _);
    try reflexivity.
  left. reflexivity.
Defined.

Lemma resize_same_document_witness :
  resized_heap !! svg (canvas resized) = Some square_doc /\
  getbbox resized resized_heap = getbbox square [square_doc] /\
  forall target format,
    @save reference resized target format resized_heap
    = @save reference square target format [square_doc].
Proof.
  apply (@resize_same_document reference square resized (VTuple [VInt 30; VInt 40])
           [square_doc] resized_heap square_doc); reflexivity.
Defined.

Lemma crop_no_box_is_resize_witness :
  @crop reference square (VTuple []) [square_doc]
  = @resize reference square (size square) [square_doc].
Proof. apply (@crop_no_box_is_resize reference). reflexivity. Defined.

Lemma derived_heap_extends_witness :
  length [square_doc; square_doc; cropped_doc] = (length [square_doc] + 2)%nat /\
  svg (canvas cropped) = S (length [square_doc]) /\
  forall l, (l < length [square_doc])%nat ->
            [square_doc; square_doc; cropped_doc] !! l = [square_doc] !! l.
Proof.
  apply (@derived_heap_extends reference square cropped (pixel_box 0 0 50 100)).
  right. vm_compute. reflexivity.
Defined.

Lemma crop_pixel_box_outcomes_witness :
  (exists copy σ',
     @crop reference square (pixel_box 0 0 50 100) [square_doc] = Ok (copy, σ')) \/
  @crop reference square (pixel_box 0 0 50 100) [square_doc] = Raise ZeroDivisionError \/
  @crop reference square (pixel_box 0 0 50 100) [square_doc] = Raise OverflowError.
Proof.
  refine (@crop_pixel_box_outcomes reference square [square_doc] _ _ square_doc
            0 0 100 100 [] 0 0 50 100 _ _ _ _ _ _ _); reflexivity.
Defined.

Lemma crop_needs_view_box_witness :
  getbbox square [bare_doc] = Ok [] /\
  @crop reference square (pixel_box 0 0 50 100) [bare_doc] = Raise IndexError.
Proof.
  destruct (@crop_needs_view_box reference square [bare_doc] _ _ bare_doc
              eq_refl eq_refl) as [Hget Hcrop].
  split.
  - apply Hget. reflexivity.
  - apply (Hcrop []); [reflexivity | simpl; lia | reflexivity].
Defined.

Lemma getbbox_failure_witness :
  ValueError = ValueError /\
  (exists w, TWord w ∈ getAttribute comma_doc "viewBox") /\
  forall box, truthy box = true ->
              @crop reference square box [comma_doc] = Raise ValueError.
Proof.
  exact (@getbbox_failure reference square [comma_doc] _ _ comma_doc ValueError
           eq_refl eq_refl eq_refl).
Defined.

Lemma crop_box_shape_witness :
  @crop reference square (VTuple [VInt 50; VInt 100]) [square_doc] = Raise IndexError /\
  @crop reference square (VTuple [VStr "0"; VInt 0; VStr "50"; VInt 100]) [square_doc]
    = Raise TypeError.
Proof.
  split.
  - refine (proj1 (@crop_box_shape reference square [square_doc] _ _ square_doc
                     0 0 100 100 [] _ [VInt 50; VInt 100] _ _ _ _ (or_introl eq_refl))
                  _); try reflexivity.
    simpl. lia.
  - refine (proj2 (@crop_box_shape reference square [square_doc] _ _ square_doc
                     0 0 100 100 [] _ [VStr "0"; VInt 0; VStr "50"; VInt 100]
                     _ _ _ _ (or_introl eq_refl))
                  (VStr "50") (VStr "0") _ _ _); try reflexivity.
    now left.
Defined.

Lemma save_propagates_io_witness :
  @save read_only square (VStr "out.svg") VNone [square_doc] = Raise OSError /\
  @save read_only square (VFile (Some (VStr "out.svg")) None false) VNone [square_doc]
    = Raise OSError.
Proof.
  split.
  - apply (proj1 (@save_propagates_io read_only square (VStr "out.svg") VNone
                    [square_doc] square_doc "out.svg" true OSError
                    eq_refl eq_refl (or_intror eq_refl)));
      reflexivity.
  - apply (proj2 (@save_propagates_io read_only square
                    (VFile (Some (VStr "out.svg")) None false) VNone
                    [square_doc] square_doc "out.svg" false OSError
                    eq_refl eq_refl (or_intror eq_refl))
                 (VFile (Some (VStr "out.svg")) None false));
      reflexivity.
Defined.

Lemma new_three_positions_witness :
  (@call_new reference [VStr "RGB"; VTuple [VInt 100; VInt 100];
                        VTuple [VInt 255; VInt 0; VInt 0]] [] []
     = Ok (set_fillColor (mkColor [VInt 255; VInt 0; VInt 0]) square, [square_doc]) /\
   @call_new reference [VStr "RGB"; VTuple [VInt 100; VInt 100]]
                       [("color", VTuple [VInt 255; VInt 0; VInt 0])] []
     = Ok (set_fillColor (mkColor [VInt 255; VInt 0; VInt 0]) square, [square_doc]) /\
   size (set_fillColor (mkColor [VInt 255; VInt 0; VInt 0]) square) = size square /\
   fillColor (canvas (set_fillColor (mkColor [VInt 255; VInt 0; VInt 0]) square))
     = Some (mkColor [VInt 255; VInt 0; VInt 0])) /\
  (@call_new reference [VStr "RGB"; VTuple [VInt 100; VInt 100];
                        VTuple [VStr "a"; VStr "b"; VStr "c"]] [] []
     = Raise TypeError /\
   @call_new reference [VStr "RGB"; VTuple [VInt 100; VInt 100]]
                       [("color", VTuple [VStr "a"; VStr "b"; VStr "c"])] []
     = Raise TypeError).
Proof.
  split.
  - apply (proj1 (@new_three_positions reference (VStr "RGB")
                    (VTuple [VInt 100; VInt 100]) [VInt 255; VInt 0; VInt 0]
                    [] [square_doc] square eq_refl ltac:(discriminate)
                    ltac:(simpl; lia))).
    reflexivity.
  - apply (proj2 (@new_three_positions reference (VStr "RGB")
                    (VTuple [VInt 100; VInt 100]) [VStr "a"; VStr "b"; VStr "c"]
                    [] [square_doc] square eq_refl ltac:(discriminate)
                    ltac:(simpl; lia))).
    reflexivity.
Defined.

Lemma new_color_edges_witness :
  fillColor (canvas square) = None /\
  (forall color, truthy color = false ->
     @new reference VNone (VTuple [VInt 100; VInt 100]) color [] = Ok (square, [square_doc])) /\
  (forall n, num_is_zero n = false ->
     @new reference VNone (VTuple [VInt 100; VInt 100]) (VNum n) [] = Raise TypeError).
Proof.
  apply (@new_color_edges reference VNone (VTuple [VInt 100; VInt 100]) []
           [square_doc] square).
  reflexivity.
Defined.

Lemma load_returns_witness :
  VStr "r" = VStr "r" /\
  exists filename,
    (VPath "/srv/broken.svg" = VStr filename \/
     exists p, VPath "/srv/broken.svg" = VPath p /\
               @Path_resolve reference p = Ok filename) /\
    @svg2rlg reference filename = Ok None /\ ([] : list Element) = [].
Proof.
  exact (@load_returns reference (VPath "/srv/broken.svg") (VStr "r") [] [] None
           eq_refl).
Defined.

Lemma crop_after_resize_witness :
  exists direct σd after σa e',
    @crop reference square (pixel_box 0 0 50 100) [square_doc] = Ok (direct, σd) /\
    @crop reference resized (pixel_box 0 0 50 100) resized_heap = Ok (after, σa) /\
    size after = size direct /\
    σd !! svg (canvas direct) = Some e' /\
    σa !! svg (canvas after) = Some e'.
Proof.
  refine (@crop_after_resize reference square resized (VTuple [VInt 30; VInt 40])
            (pixel_box 0 0 50 100) [square_doc] _ resized_heap _ _ _ square_doc
            0 0 100 100 [] (PInt 50) (PInt 100) 0.5 _ _ _ _ _ _ _ _ _ _ _);
    try reflexivity.
  left. reflexivity.
Defined.

Lemma save_path_never_returns_witness :
  (forall w, @save reference square (VStr "thumb.svg") VNone [square_doc] <> Ok w) /\
  @save reference square (VStr "thumb.svg") VNone [square_doc] = Raise TypeError.
Proof.
  destruct (@save_path_never_returns reference square (VStr "thumb.svg") VNone
              [square_doc] square_doc "thumb.svg" eq_refl eq_refl) as [Hnever Hraises].
  - intros f [= <-]. now exists (Some (VStr "thumb.svg")), None.
  - reflexivity.
  - split; [exact Hnever|].
    apply (Hraises (or_intror eq_refl) (VFile (Some (VStr "thumb.svg")) None true)).
    reflexivity.
Defined.
